(** * checklist.py: the repository validators of scikit-bio

    A shallow embedding of [checklist.py] and the properties of its four
    validators, with the API regression check (the registry of minimal
    imports) at the centre.

    Strings are Rocq strings, the registry [self._imports] is a finite map
    from symbol to dotted path, the directory tree walked by [os.walk] is an
    inductive tree, and the exceptions the script can raise are the error
    side of a result type threaded through every loop. *)

From Stdlib Require Import Ascii String List Bool Arith Lia.
From stdpp Require Import base option list gmap strings.

Local Open Scope string_scope.
Local Open Scope list_scope.

(** ** Python strings *)

Module Str.

(** [s.split(c)] for a one-character separator: never empty, and the
    empty string splits into one empty field. *)
Fixpoint split (c : ascii) (s : string) : list string :=
  match s with
  | EmptyString => [EmptyString]
  | String a s' =>
      if Ascii.eqb a c then EmptyString :: split c s'
      else match split c s' with
           | [] => [String a EmptyString]
           | h :: t => String a h :: t
           end
  end.

(** [sep.join(l)] *)
Fixpoint join (sep : string) (l : list string) : string :=
  match l with
  | [] => EmptyString
  | [x] => x
  | x :: l' => x +:+ sep +:+ join sep l'
  end.

(** [s.replace(a, b)] for one-character [a] and [b]. *)
Fixpoint replace (a b : ascii) (s : string) : string :=
  match s with
  | EmptyString => EmptyString
  | String c s' => String (if Ascii.eqb c a then b else c) (replace a b s')
  end.

(** [(s[:i], s[i:])] with [i = s.rfind(c) + 1]: the left part keeps the
    last [c]; it is empty when [c] does not occur. *)
Fixpoint rcut (c : ascii) (s : string) : string * string :=
  match s with
  | EmptyString => (EmptyString, EmptyString)
  | String a s' =>
      let '(h, t) := rcut c s' in
      match h with
      | EmptyString =>
          if Ascii.eqb a c then (String a EmptyString, t)
          else (EmptyString, String a t)
      | _ => (String a h, t)
      end
  end.

(** [s.rstrip(c)] *)
Fixpoint rstrip (c : ascii) (s : string) : string :=
  match s with
  | EmptyString => EmptyString
  | String a s' =>
      match rstrip c s' with
      | EmptyString => if Ascii.eqb a c then EmptyString else String a EmptyString
      | r => String a r
      end
  end.

(** every character of [s] is [c] *)
Fixpoint all_char (c : ascii) (s : string) : bool :=
  match s with
  | EmptyString => true
  | String a s' => Ascii.eqb a c && all_char c s'
  end.

(** [c in s] *)
Fixpoint has_char (c : ascii) (s : string) : bool :=
  match s with
  | EmptyString => false
  | String a s' => Ascii.eqb a c || has_char c s'
  end.

(** [s[:-1]] *)
Fixpoint drop_last (s : string) : string :=
  match s with
  | EmptyString => EmptyString
  | String _ EmptyString => EmptyString
  | String a s' => String a (drop_last s')
  end.

Definition is_empty (s : string) : bool :=
  match s with EmptyString => true | _ => false end.

End Str.

(** ** [os.path] on a POSIX system *)

Module os_path.

Definition sep : ascii := "/"%char.
Definition dot : ascii := "."%char.

(** [os.path.join(a, b)] *)
Definition join (a b : string) : string :=
  match b with
  | String c _ =>
      if Ascii.eqb c sep then b
      else if Str.is_empty a then b
      else if Str.is_empty (snd (Str.rcut sep a)) then a +:+ b
      else a +:+ String sep b
  | EmptyString =>
      if Str.is_empty a then b
      else if Str.is_empty (snd (Str.rcut sep a)) then a
      else a +:+ String sep b
  end.

(** [os.path.split(p)]: the head loses its trailing separators unless it
    consists of separators only. *)
Definition split (p : string) : string * string :=
  let '(head, tail) := Str.rcut sep p in
  (if negb (Str.is_empty head) && negb (Str.all_char sep head)
   then Str.rstrip sep head else head, tail).

(** [os.path.splitext(p)]: the extension starts at the last dot of the
    last component, and leading dots of that component do not count. *)
Definition splitext (p : string) : string * string :=
  let '(dir, base) := Str.rcut sep p in
  let '(stem_dot, rest) := Str.rcut dot base in
  if Str.is_empty stem_dot then (p, EmptyString)
  else if Str.all_char dot (Str.drop_last stem_dot) then (p, EmptyString)
  else (dir +:+ Str.drop_last stem_dot, String dot rest).

End os_path.

(** ** Exceptions *)

(** The exceptions the script can end with: [ast.parse] on a malformed
    file, the concatenation of a string with [None], and a path that is not
    in the file system.  Nothing in [checklist.py] catches any of them. *)
Inductive exn := SyntaxError | TypeError | OSError.

Inductive result (A : Type) :=
| Ok (a : A)
| Raise (e : exn).
Arguments Ok {A} a.
Arguments Raise {A} e.

#[global] Instance result_ret : MRet result := fun _ a => Ok a.
#[global] Instance result_bind : MBind result := fun _ _ f m =>
  match m with
  | Ok a => f a
  | Raise e => Raise e
  end.

(** [for x in xs: ...] over a loop state, stopping at the first exception. *)
Fixpoint for_each {A S : Type} (body : A -> S -> result S) (xs : list A) (s : S)
  : result S :=
  match xs with
  | [] => Ok s
  | x :: xs' => s' ← body x s; for_each body xs' s'
  end.

(** [[f(x) for x in xs]] *)
Fixpoint comprehension {A B : Type} (f : A -> result B) (xs : list A)
  : result (list B) :=
  match xs with
  | [] => Ok []
  | x :: xs' => y ← f x; ys ← comprehension f xs'; Ok (y :: ys)
  end.

(** ** The file system and the syntax trees of its files *)

(** [ast.alias] *)
Record alias := Alias { name : string; asname : option string }.

(** The top-level statements of a module: [ast.Import], [ast.ImportFrom]
    (whose [module] is [None] for [from . import x]) and anything else. *)
Inductive stmt :=
| Import (names : list alias)
| ImportFrom (module : option string) (names : list alias) (level : nat)
| OtherStmt.

(** What [ast.parse(f.read())] makes of a file. *)
Inductive source :=
| Malformed
| Module_ (body : list stmt).

Record file := File {
  f_name : string;
  f_source : source;
  f_exec : bool;       (* os.access(fp, os.X_OK) *)
  f_size : option nat  (* os.path.getsize(fp); None when the entry cannot be
                          stat'ed, as for a dangling symbolic link *)
}.

(** A directory: its files and its named subdirectories, in the order in
    which [os.walk] lists them. *)
#[local] Unset Elimination Schemes.
Inductive tree :=
| Dir (files : list file) (dirs : list (string * tree)).
#[local] Set Elimination Schemes.

(** [name in files] *)
Definition has_file (n : string) (files : list file) : bool :=
  existsb (fun f => String.eqb (f_name f) n) files.

Definition str_in (x : string) (l : list string) : bool :=
  existsb (String.eqb x) l.

(** [l.remove(x)] for an [x] that is in [l]: the first occurrence goes. *)
Fixpoint list_remove (x : string) (l : list string) : list string :=
  match l with
  | [] => []
  | y :: l' => if String.eqb y x then l' else y :: list_remove x l'
  end.

(** ** RepoValidator *)

(** A validator is an object (its attributes are the state [S]) with a
    [reason] and a [_validate] that receives what [os.walk] yields.
    [_validate] returns the invalid paths, the list [dirs] as it has left
    it ([os.walk] descends into what remains) and the object. *)
Record RepoValidator (S : Type) := {
  reason : string;
  _validate : S -> string -> list string -> list file ->
              result (list string * list string * S)
}.
Arguments reason {S} _.
Arguments _validate {S} _ _ _ _ _.

Section Validate.
Context {S : Type} (v : RepoValidator S).

(** The loop [for root, dirs, files in os.walk(root)] of [validate],
    top-down: a directory is handed to [_validate] before its
    subdirectories, and a subdirectory is entered only when its name is
    still in [dirs].  The names of the subdirectories of one directory are
    distinct, and [_validate] only ever removes names from [dirs], so that
    going through the subdirectories and skipping the removed ones is going
    through what is left of [dirs]. *)
Fixpoint walk (top : string) (t : tree) (invalids : list string) (self : S)
  {struct t} : result (list string * S) :=
  match t with
  | Dir files dirs =>
      match _validate v self top (map fst dirs) files with
      | Raise e => Raise e
      | Ok (result_, dirs', self) =>
          (fix walk_dirs (ds : list (string * tree)) (invalids : list string)
               (self : S) {struct ds} : result (list string * S) :=
             match ds with
             | [] => Ok (invalids, self)
             | (n, d) :: ds' =>
                 if str_in n dirs' then
                   match walk (os_path.join top n) d invalids self with
                   | Raise e => Raise e
                   | Ok (invalids, self) => walk_dirs ds' invalids self
                   end
                 else walk_dirs ds' invalids self
             end) dirs (invalids ++ result_) self
      end
  end.

Definition report (invalids : list string) : bool * list string :=
  match invalids with
  | [] => (true, [])
  | _ => (false, (reason v +:+ ":") :: map (fun invalid => "    " +:+ invalid) invalids)
  end.

Definition validate (self : S) (root : string) (t : tree)
  : result (bool * list string * S) :=
  match walk root t [] self with
  | Raise e => Raise e
  | Ok (invalids, self) => Ok (report invalids, self)
  end.

End Validate.

(** ** InitValidator *)

Module InitValidator.

Record t := { skip_dirs : list string }.

Definition __init__ (skip_dirs : option (list string)) : t :=
  {| skip_dirs := match skip_dirs with
                  | None => ["data"; "__pycache__"]
                  | Some l => l
                  end |}.

Definition reason : string := "Directories missing init files".

(** The directories to skip are taken out of [dirs], the list that
    [os.walk] goes on to read. *)
Definition _validate (self : t) (root : string) (dirs : list string)
    (files : list file) : result (list string * list string * t) :=
  let dirs :=
    fold_left (fun dirs skip_dir =>
                 if str_in skip_dir dirs then list_remove skip_dir dirs else dirs)
              (skip_dirs self) dirs in
  let invalid_dirs := if negb (has_file "__init__.py" files) then [root] else [] in
  Ok (invalid_dirs, dirs, self).

Definition validator : RepoValidator t :=
  Build_RepoValidator t reason _validate.

End InitValidator.

(** ** ExecPermissionValidator *)

Module ExecPermissionValidator.

Record t := { extensions : list string }.

Definition __init__ (extensions : option (list string)) : t :=
  {| extensions := match extensions with
                   | None => [".py"; ".pyx"; ".h"; ".c"]
                   | Some l => l
                   end |}.

Definition reason : string := "Library code with execute permissions".

Definition _validate (self : t) (root : string) (dirs : list string)
    (files : list file) : result (list string * list string * t) :=
  let invalid_fps :=
    fold_left (fun invalid_fps f =>
                 let '(_, ext) := os_path.splitext (f_name f) in
                 if str_in ext (extensions self) then
                   let fp := os_path.join root (f_name f) in
                   if f_exec f then invalid_fps ++ [fp] else invalid_fps
                 else invalid_fps)
              files [] in
  Ok (invalid_fps, dirs, self).

Definition validator : RepoValidator t :=
  Build_RepoValidator t reason _validate.

End ExecPermissionValidator.

(** ** GeneratedCythonValidator *)

Module GeneratedCythonValidator.

Record t := { cython_ext : string; c_ext : string }.

Definition __init__ : t := {| cython_ext := ".pyx"; c_ext := ".c" |}.

Definition reason : string := "Cython code missing generated C code".

(** [ext_to_base[ext]] of a [defaultdict(list)] *)
Definition bases (ext_to_base : gmap string (list string)) (ext : string)
  : list string :=
  default [] (ext_to_base !! ext).

(** [os.path.getsize] of a file of the directory, by name: an [OSError]
    when the name is not in the listing or the entry cannot be stat'ed. *)
Definition getsize (files : list file) (n : string) : result nat :=
  match find (fun f => String.eqb (f_name f) n) files with
  | Some f =>
      match f_size f with
      | Some size => Ok size
      | None => Raise OSError
      end
  | None => Raise OSError
  end.

Definition _validate (self : t) (root : string) (dirs : list string)
    (files : list file) : result (list string * list string * t) :=
  let ext_to_base :=
    fold_left (fun (ext_to_base : gmap string (list string)) f =>
                 let '(base, ext) := os_path.splitext (f_name f) in
                 <[ext := bases ext_to_base ext ++ [base]]> ext_to_base)
              files ∅ in
  invalid_fps ←
    for_each (fun cython_base invalid_fps =>
                let cython_fp := os_path.join root (cython_base +:+ cython_ext self) in
                if negb (str_in cython_base (bases ext_to_base (c_ext self)))
                then Ok (invalid_fps ++ [cython_fp])
                else
                  size ← getsize files (cython_base +:+ c_ext self);
                  if Nat.leb size 0 then Ok (invalid_fps ++ [cython_fp])
                  else Ok invalid_fps)
             (bases ext_to_base (cython_ext self)) [];
  Ok (invalid_fps, dirs, self).

Definition validator : RepoValidator t :=
  Build_RepoValidator t reason _validate.

End GeneratedCythonValidator.

(** ** APIRegressionValidator *)

Module APIRegressionValidator.

(** The object: [self._imports], from the imported name to the dotted
    path recorded for it. *)
Record t := { _imports : gmap string string }.

Definition __init__ : t := {| _imports := ∅ |}.

Definition reason : string :=
  "The following tests import `A` but should import `B` (file: A => B)".

(** [len(s.split('.'))] *)
Definition depth (s : string) : nat := length (Str.split os_path.dot s).

(** [s.split(".")[-1]] *)
Definition key_of (import_ : string) : string :=
  List.last (Str.split os_path.dot import_) "".

(** [prefix + node.module], a [TypeError] when the module is [None]. *)
Definition str_add (prefix : string) (module : option string) : result string :=
  match module with
  | Some m => Ok (prefix +:+ m)
  | None => Raise TypeError
  end.

(** [while(extra > 0): prefix = os.path.split(prefix)[0]; extra -= 1] *)
Fixpoint drop_levels (extra : nat) (prefix : string) : string :=
  match extra with
  | 0 => prefix
  | S extra' => drop_levels extra' (fst (os_path.split prefix))
  end.

(** The prefix of a from-import found in a file of directory [root]. *)
Definition import_prefix (root : string) (level : nat) : string :=
  if Nat.ltb 0 level
  then Str.replace os_path.sep os_path.dot (drop_levels (level - 1) root) +:+ "."
  else "".

(** One top-level node of the module, added to [imports]. *)
Definition parse_node (root : string) (node : stmt) (imports : list string)
  : result (list string) :=
  match node with
  | Import names => Ok (imports ++ map name names)
  | ImportFrom module names level =>
      let prefix := import_prefix root level in
      new ← comprehension
              (fun x => m ← str_add prefix module; Ok (Str.join "." [m; name x]))
              names;
      Ok (imports ++ new)
  | OtherStmt => Ok imports
  end.

Definition is_skbio (import_ : string) : bool :=
  String.eqb (hd "" (Str.split os_path.dot import_)) "skbio".

(** [_parse_file(fp, root)], with the file at [fp] as its argument. *)
Definition _parse_file (f : file) (root : string) : result (list string) :=
  match f_source f with
  | Malformed => Raise SyntaxError
  | Module_ body =>
      imports ← for_each (parse_node root) body [];
      Ok (List.filter is_skbio imports)
  end.

(** The dotted path a package offers for an import. *)
Definition candidate (package import_ : string) : string :=
  if Nat.ltb (depth package + 1) (depth import_)
  then Str.join "." [package; key_of import_]
  else import_.

(** One round of the loop of [_add_imports]. *)
Definition add_import (package : string) (reg : gmap string string)
    (import_ : string) : gmap string string :=
  let value := candidate package import_ in
  let key := key_of import_ in
  match reg !! key with
  | Some sub =>
      if Nat.ltb (depth value) (depth sub) then <[key := value]> reg else reg
  | None => <[key := value]> reg
  end.

Definition _add_imports (imports : list string) (package : string)
    (reg : gmap string string) : gmap string string :=
  fold_left (add_import package) imports reg.

Definition _minimal_import (reg : gmap string string) (import_ : string)
  : option string :=
  let key := key_of import_ in
  match reg !! key with
  | None => None
  | Some substitute =>
      if Nat.eqb (depth substitute) (depth import_) then None else Some substitute
  end.

(** The first loop of [_validate], one file: the loop state is
    [test_imports] and the registry. *)
Definition visit_file (root : string) (f : file)
    (st : list (string * list string) * gmap string string)
  : result (list (string * list string) * gmap string string) :=
  let '(test_imports, reg) := st in
  let current_fp := os_path.join root (f_name f) in
  let '(package, ext) := os_path.splitext current_fp in
  if String.eqb ext ".py" then
    imports ← _parse_file f root;
    let test_imports :=
      if String.eqb (snd (os_path.split root)) "tests"
      then test_imports ++ [(current_fp, imports)] else test_imports in
    let temp := Str.split os_path.sep package in
    if String.eqb (List.last temp "") "__init__" then
      let temp := removelast temp in
      let package := Str.join "." temp in
      Ok (test_imports, _add_imports imports package reg)
    else Ok (test_imports, reg)
  else Ok st.

Definition error_line (fp import_ substitute : string) : string :=
  fp +:+ ": " +:+ import_ +:+ " => " +:+ substitute.

(** The second loop of [_validate]. *)
Definition check_imports (reg : gmap string string)
    (test_imports : list (string * list string)) : list string :=
  flat_map (fun '(fp, imports) =>
              flat_map (fun import_ =>
                          match _minimal_import reg import_ with
                          | Some substitute => [error_line fp import_ substitute]
                          | None => []
                          end) imports)
           test_imports.

Definition _validate (self : t) (root : string) (dirs : list string)
    (files : list file) : result (list string * list string * t) :=
  '(test_imports, reg) ← for_each (visit_file root) files ([], _imports self);
  Ok (check_imports reg test_imports, dirs, {| _imports := reg |}).

Definition validator : RepoValidator t :=
  Build_RepoValidator t reason _validate.

End APIRegressionValidator.

(** ** main *)

(** A validator object of any class. *)
Inductive validator_obj :=
| Validator {S : Type} (v : RepoValidator S) (self : S).

Definition run_validate (o : validator_obj) (root : string) (t : tree)
  : result (bool * list string) :=
  match o with
  | Validator v self =>
      '(r, _) ← validate v self root t; Ok r
  end.

Definition nl : string := String (ascii_of_nat 10) "".

(** The loop of [main] over the validators: the return code so far and what
    has been written to [sys.stderr]. *)
Fixpoint main_loop (validators : list validator_obj) (root : string) (t : tree)
    (return_code : nat) (stderr : string) : string * result nat :=
  match validators with
  | [] => (stderr, Ok return_code)
  | validator :: rest =>
      match run_validate validator root t with
      | Raise e => (stderr, Raise e)
      | Ok (success, msg) =>
          if success then main_loop rest root t return_code stderr
          else main_loop rest root t 1 (stderr +:+ Str.join nl msg +:+ nl +:+ nl)
      end
  end.

Definition validators : list validator_obj :=
  [ Validator InitValidator.validator (InitValidator.__init__ None);
    Validator ExecPermissionValidator.validator (ExecPermissionValidator.__init__ None);
    Validator GeneratedCythonValidator.validator GeneratedCythonValidator.__init__;
    Validator APIRegressionValidator.validator APIRegressionValidator.__init__ ].

(** [main()], for the directory tree at ['skbio']: what it writes to
    [sys.stderr] and what it returns or raises. *)
Definition main (t : tree) : string * result nat :=
  main_loop validators "skbio" t 0 "".

(** ** The walk as a list *)

(** What [os.walk(top)] yields when nobody touches [dirs]: the directories
    top-down, each before its subdirectories. *)
Fixpoint os_walk (top : string) (t : tree)
  : list (string * list string * list file) :=
  match t with
  | Dir files dirs =>
      (top, map fst dirs, files) ::
      (fix sub (ds : list (string * tree)) :=
         match ds with
         | [] => []
         | (n, d) :: ds' => os_walk (os_path.join top n) d ++ sub ds'
         end) dirs
  end.

(** [validate]'s loop over such a list. *)
Fixpoint run_dirs {S : Type} (v : RepoValidator S)
    (l : list (string * list string * list file)) (invalids : list string)
    (self : S) : result (list string * S) :=
  match l with
  | [] => Ok (invalids, self)
  | (top, dirs, files) :: l' =>
      match _validate v self top dirs files with
      | Raise e => Raise e
      | Ok (result_, _, self) => run_dirs v l' (invalids ++ result_) self
      end
  end.

(** A validator that leaves [dirs] as it got it. *)
Definition keeps_dirs {S : Type} (v : RepoValidator S) : Prop :=
  forall self top dirs files result_ dirs' self',
    _validate v self top dirs files = Ok (result_, dirs', self') -> dirs' = dirs.

(** No directory of the tree holds a file. *)
Fixpoint no_files (t : tree) : bool :=
  match t with
  | Dir files dirs =>
      match files with [] => true | _ => false end
      && (fix all (ds : list (string * tree)) :=
            match ds with
            | [] => true
            | (_, d) :: ds' => no_files d && all ds'
            end) dirs
  end.

(** ** What the API regression check reads off a walk *)

Module API := APIRegressionValidator.

(** The imports of a file that parses. *)
Definition file_imports (f : file) (root : string) : list string :=
  match API._parse_file f root with
  | Ok imports => imports
  | Raise _ => []
  end.

(** [ext == ".py"] for the file [f] of directory [root]. *)
Definition is_py (root : string) (f : file) : bool :=
  String.eqb (snd (os_path.splitext (os_path.join root (f_name f)))) ".py".

(** The package of an [__init__] file, the only kind of file whose imports
    reach [_add_imports]. *)
Definition init_package (root : string) (f : file) : option string :=
  let temp := Str.split os_path.sep
                (fst (os_path.splitext (os_path.join root (f_name f)))) in
  if String.eqb (List.last temp "") "__init__"
  then Some (Str.join "." (removelast temp))
  else None.

(** The pairs (package, import) a file hands to [_add_imports]. *)
Definition file_offers (root : string) (f : file) : list (string * string) :=
  if is_py root f then
    match init_package root f with
    | Some package => map (fun import_ => (package, import_)) (file_imports f root)
    | None => []
    end
  else [].

Definition dir_offers (root : string) (files : list file) : list (string * string) :=
  flat_map (file_offers root) files.

Definition in_tests (root : string) : bool :=
  String.eqb (snd (os_path.split root)) "tests".

(** What a file adds to [test_imports]. *)
Definition file_tests (root : string) (f : file) : list (string * list string) :=
  if is_py root f && in_tests root
  then [(os_path.join root (f_name f), file_imports f root)]
  else [].

(** [test_imports] at the end of the first loop of [_validate]. *)
Definition dir_tests (root : string) (files : list file)
  : list (string * list string) :=
  flat_map (file_tests root) files.

(** The registry after a list of offers. *)
Definition build (offers : list (string * string)) (reg : gmap string string)
  : gmap string string :=
  fold_left (fun reg '(package, import_) => API.add_import package reg import_)
            offers reg.

Definition walk_offers (l : list (string * list string * list file))
  : list (string * string) :=
  flat_map (fun '(top, _, files) => dir_offers top files) l.

Definition walk_tests (l : list (string * list string * list file))
  : list (string * list string) :=
  flat_map (fun '(top, _, files) => dir_tests top files) l.

(** The errors of a walk: each directory's test imports are checked against
    the registry as it is once the files of that directory, and of the
    directories before it, have been added. *)
Fixpoint checks_in_walk_order (l : list (string * list string * list file))
    (reg : gmap string string) : list string :=
  match l with
  | [] => []
  | (top, _, files) :: l' =>
      let reg := build (dir_offers top files) reg in
      API.check_imports reg (dir_tests top files) ++ checks_in_walk_order l' reg
  end.

(** Every [.py] file of the directory parses and has a module wherever it
    needs one. *)
Definition dir_parses (root : string) (files : list file) : Prop :=
  forall f, In f files -> is_py root f = true ->
            exists imports, API._parse_file f root = Ok imports.

Definition walk_parses (l : list (string * list string * list file)) : Prop :=
  forall top dirs files, In (top, dirs, files) l -> dir_parses top files.

(** A candidate path for a symbol, as [_add_imports] computes it. *)
Definition offered (offers : list (string * string)) (key value : string) : Prop :=
  exists package import_,
    In (package, import_) offers /\
    API.key_of import_ = key /\ API.candidate package import_ = value.


(** A registry that already holds, for every offer, a path that is no longer,
    is left as it is. *)
Definition settled (offers : list (string * string)) (reg : gmap string string)
  : Prop :=
  forall package import_, In (package, import_) offers ->
    exists s, reg !! API.key_of import_ = Some s /\
              API.depth s <= API.depth (API.candidate package import_).

(** ** Trees and statements used by the properties below *)

(** A [.py] file that parses, and [from m import n]. *)
Definition py (n : string) (body : list stmt) : file :=
  File n (Module_ body) false (Some 0).

Definition from_import (m n : string) : stmt :=
  ImportFrom (Some m) [Alias n None] 0.

(** [skbio/a/tests/test_x.py] imports [foo] by the path that
    [skbio/x/__init__.py], visited after it, shortens. *)
Definition late_alias_tree : tree :=
  Dir [py "__init__.py" []]
    [("a", Dir [py "__init__.py" []]
         [("tests", Dir [py "__init__.py" [];
                         py "test_x.py" [from_import "skbio.x.y.z" "foo"]] [])]);
     ("x", Dir [py "__init__.py" [from_import "skbio.x.y.z" "foo"]] [])].

(** Every test file is checked against the registry of the whole tree. *)
Definition checked_after_full_build (self : API.t) (root : string) (t : tree)
  : Prop :=
  forall r self', validate API.validator self root t = Ok (r, self') ->
    r = report API.validator
          (API.check_imports (API._imports self') (walk_tests (os_walk root t))).

(** Only [skbio/tests/__init__.py] imports anything. *)
Definition tests_init_tree : tree :=
  Dir [py "__init__.py" []; py "mod.py" [OtherStmt]]
    [("tests", Dir [py "__init__.py" [from_import "skbio.a.b" "foo"]] [])].

(** The package path of the spec: the directory of the file, dotted. *)
Definition spec_package_path (top : string) : string :=
  Str.replace os_path.sep os_path.dot top.

(** The offers of the non-test source files of a walk, as the spec has
    them: every [.py] file outside a [tests] directory offers its imports
    from its package path. *)
Definition nontest_offers (l : list (string * list string * list file))
  : list (string * string) :=
  flat_map (fun '(top, _, files) =>
              if in_tests top then []
              else flat_map (fun f =>
                     if is_py top f
                     then map (fun import_ => (spec_package_path top, import_))
                              (file_imports f top)
                     else []) files) l.

(** The registry holds, for each of its symbols, the shortest of the paths
    the non-test files offer, and nothing else. *)
Definition minimal_over_nontest (root : string) (t : tree) : Prop :=
  forall r self', validate API.validator API.__init__ root t = Ok (r, self') ->
    forall key s, API._imports self' !! key = Some s ->
      offered (nontest_offers (os_walk root t)) key s /\
      forall v, offered (nontest_offers (os_walk root t)) key v ->
                API.depth s <= API.depth v.

(** [skbio/bad.py] does not parse. *)
Definition malformed_tree : tree :=
  Dir [py "__init__.py" []; File "bad.py" Malformed false (Some 0);
       py "good.py" [OtherStmt]] [].

(** Scenario A: [skbio/sub/__init__.py] imports [foo] from [skbio.sub.mod],
    and so does a test of [skbio/sub/tests]. *)
Definition scenario_A_tree : tree :=
  Dir [py "__init__.py" []]
    [("sub", Dir [py "__init__.py" [from_import "skbio.sub.mod" "foo"];
                  py "mod.py" [OtherStmt]]
         [("tests", Dir [py "__init__.py" [];
                         py "test_mod.py" [from_import "skbio.sub.mod" "foo"]] [])])].

(** A test imports [skbio.util] while the registry knows [util] by a longer
    path only. *)
Definition short_import_tree : tree :=
  Dir [py "__init__.py" []]
    [("a", Dir [py "__init__.py" []]
         [("b", Dir [py "__init__.py" [from_import "skbio.a.b" "util"]]
              [("tests", Dir [py "__init__.py" [];
                              py "test_util.py" [Import [Alias "skbio.util" None]]]
                   [])])])].

(** [skbio/__init__.py] is [from . import x]. *)
Definition bare_relative_tree : tree :=
  Dir [py "__init__.py" [ImportFrom None [Alias "x" None] 1]] [].


(** ** Relative imports, in the words of the spec *)

(** A directory name: not empty, no separator in it. *)
Definition segment (s : string) : Prop :=
  s <> "" /\ Str.has_char os_path.sep s = false.

(** Walking up [n] directories. *)
Fixpoint spec_walk_up (n : nat) (segs : list string) : list string :=
  match n with
  | 0 => segs
  | S n' => spec_walk_up n' (removelast segs)
  end.

(** Walking up [level - 1] directories from the directory of the file. *)
Definition spec_base (segs : list string) (level : nat) : list string :=
  spec_walk_up (level - 1) segs.

(** The module of the absolute import that says the same as the relative
    import of [module] at [level] in a file of the directory [segs]. *)
Definition spec_absolute_module (segs : list string) (level : nat)
    (module : string) : string :=
  Str.join "." (spec_base segs level) +:+ "." +:+ module.

(** A directory with nothing in it. *)
Definition empty_tree : tree := Dir [] [].

(** Every check of [main] succeeds with an empty report. *)
Definition all_checks_pass (t : tree) : Prop :=
  forall o, In o validators -> run_validate o "skbio" t = Ok (true, []).

(** The API regression check returns, marked failed. *)
Definition check_marked_failed (t : tree) : Prop :=
  exists msg self',
    validate API.validator API.__init__ "skbio" t = Ok (false, msg, self').

(** What [main] has written to [sys.stderr] after the checks with these
    results: the report of each failed check, a blank line after each. *)
Definition stderr_of (results : list (bool * list string)) (stderr : string)
  : string :=
  fold_left (fun stderr r =>
               if fst (r : bool * list string) then stderr
               else stderr +:+ Str.join nl (snd r) +:+ nl +:+ nl)
            results stderr.

(** ["    %s" % invalid] *)
Definition indented (invalid : string) : string := "    " +:+ invalid.

(** ** Further notions: pruned trees, flagged files, stripped aliases *)

(** The tree without the subdirectories whose names are in [skip], at any
    depth below the root. *)
Fixpoint prune (skip : list string) (t : tree) : tree :=
  match t with
  | Dir files dirs =>
      Dir files
        ((fix go (ds : list (string * tree)) : list (string * tree) :=
            match ds with
            | [] => []
            | (n, d) :: ds' =>
                if str_in n skip then go ds' else (n, prune skip d) :: go ds'
            end) dirs)
  end.

(** The subdirectories of every directory have distinct names. *)
Fixpoint distinct_names (t : tree) : Prop :=
  match t with
  | Dir _ dirs =>
      List.NoDup (map fst dirs) /\
      (fix all (ds : list (string * tree)) : Prop :=
         match ds with
         | [] => True
         | (_, d) :: ds' => distinct_names d /\ all ds'
         end) dirs
  end.

(** The directories of a walk that have no [__init__.py]. *)
Definition missing_init (l : list (string * list string * list file))
  : list string :=
  flat_map (fun '(top, _, files) =>
              if has_file "__init__.py" files then [] else [top]) l.

(** The file has one of the extensions and may be executed. *)
Definition exec_flagged (extensions : list string) (f : file) : bool :=
  str_in (snd (os_path.splitext (f_name f))) extensions && f_exec f.

(** The base names of the files with extension [ext], in the order of the
    listing. *)
Definition bases_with (ext : string) (files : list file) : list string :=
  flat_map (fun f => let '(base, e) := os_path.splitext (f_name f) in
                     if String.eqb e ext then [base] else []) files.

(** The statement with the local names ([as ...]) of its aliases removed. *)
Definition strip_asname (node : stmt) : stmt :=
  match node with
  | Import names => Import (map (fun x => Alias (name x) None) names)
  | ImportFrom module names level =>
      ImportFrom module (map (fun x => Alias (name x) None) names) level
  | OtherStmt => OtherStmt
  end.

(** The Cython file with this base name has no generated C file beside it,
    or an empty one. *)
Definition cython_flagged (c_ext : string) (files : list file) (base : string)
  : bool :=
  negb (str_in base (bases_with c_ext files))
  || match find (fun f => String.eqb (f_name f) (base +:+ c_ext)) files with
     | Some g =>
         match f_size g with
         | Some size => Nat.leb size 0
         | None => false
         end
     | None => false
     end.

(** The Cython file with this base name has a generated C file beside it
    whose size cannot be read. *)
Definition cython_unreadable (c_ext : string) (files : list file) (base : string)
  : bool :=
  str_in base (bases_with c_ext files)
  && match find (fun f => String.eqb (f_name f) (base +:+ c_ext)) files with
     | Some g =>
         match f_size g with
         | Some _ => false
         | None => true
         end
     | None => false
     end.

(** A Cython file next to a C file that is a dangling symbolic link. *)
Definition dangling_c_tree : tree :=
  Dir [py "__init__.py" []; File "a.pyx" (Module_ []) false (Some 10);
       File "a.c" (Module_ []) false None] [].

(** The same files with [skbio/sub] listed before [skbio/tests]. *)
Definition scenario_A_sub_first_tree : tree :=
  Dir [py "__init__.py" []]
    [("sub", Dir [py "__init__.py" [from_import "skbio.sub.mod" "foo"];
                  py "mod.py" [OtherStmt]] []);
     ("tests", Dir [py "__init__.py" [];
                    py "test_mod.py" [from_import "skbio.sub.mod" "foo"]] [])].

(** Scenario A with the test file in [skbio/tests], listed before
    [skbio/sub]. *)
Definition scenario_A_tests_first_tree : tree :=
  Dir [py "__init__.py" []]
    [("tests", Dir [py "__init__.py" [];
                    py "test_mod.py" [from_import "skbio.sub.mod" "foo"]] []);
     ("sub", Dir [py "__init__.py" [from_import "skbio.sub.mod" "foo"];
                  py "mod.py" [OtherStmt]] [])].

(** * Properties *)

(** ** The string model on small inputs *)

Example split_dotted : Str.split "." "skbio.sub.foo" = ["skbio"; "sub"; "foo"].
Proof. reflexivity. Qed.
Example split_empty : Str.split "." "" = [""].
Proof. reflexivity. Qed.
Example split_edges : Str.split "." ".a." = [""; "a"; ""].
Proof. reflexivity. Qed.
Example join_dotted : Str.join "." ["skbio"; "sub"; "foo"] = "skbio.sub.foo".
Proof. reflexivity. Qed.
Example path_join : os_path.join "skbio/sub" "__init__.py" = "skbio/sub/__init__.py".
Proof. reflexivity. Qed.
Example path_split : os_path.split "skbio/sub/tests" = ("skbio/sub", "tests").
Proof. reflexivity. Qed.
Example path_split_top : os_path.split "skbio" = ("", "skbio").
Proof. reflexivity. Qed.
Example path_split_root : os_path.split "/" = ("/", "").
Proof. reflexivity. Qed.
Example path_split_slashes : os_path.split "a//b" = ("a", "b").
Proof. reflexivity. Qed.
Example path_splitext : os_path.splitext "skbio/sub/__init__.py" = ("skbio/sub/__init__", ".py").
Proof. reflexivity. Qed.
Example path_splitext_hidden : os_path.splitext "skbio/.hidden" = ("skbio/.hidden", "").
Proof. reflexivity. Qed.
Example path_splitext_dotdir : os_path.splitext "skbio.d/README" = ("skbio.d/README", "").
Proof. reflexivity. Qed.
Example path_splitext_two : os_path.splitext "a/b.tar.gz" = ("a/b.tar", ".gz").
Proof. reflexivity. Qed.
Example path_splitext_dots : os_path.splitext "a/..x" = ("a/..x", "").
Proof. reflexivity. Qed.
Example path_splitext_dots2 : os_path.splitext "a/..x.py" = ("a/..x", ".py").
Proof. reflexivity. Qed.

(** ** Loops and the result type *)

Lemma tree_induction (P : tree -> Prop) :
  (forall files dirs, Forall (fun nd => P (snd nd)) dirs -> P (Dir files dirs)) ->
  forall t, P t.
Proof.
  intros H.
  refine (fix IH (t : tree) : P t :=
            match t with
            | Dir files dirs =>
                H files dirs
                  ((fix aux (ds : list (string * tree))
                     : Forall (fun nd => P (snd nd)) ds :=
                      match ds with
                      | [] => List.Forall_nil _
                      | (n, d) :: ds' =>
                          List.Forall_cons _ (n, d) ds' (IH d) (aux ds')
                      end) dirs)
            end).
Qed.

Lemma for_each_app {A S : Type} (body : A -> S -> result S) xs ys s :
  for_each body (xs ++ ys) s =
  match for_each body xs s with
  | Ok s' => for_each body ys s'
  | Raise e => Raise e
  end.
Proof.
  revert s. induction xs as [|x xs IH]; intros s; simpl; [reflexivity|].
  unfold mbind, result_bind. destruct (body x s); [apply IH | reflexivity].
Qed.

(** A loop whose body raises at some element, whatever the state, raises. *)
Lemma for_each_raises {A S : Type} (body : A -> S -> result S) xs x :
  In x xs -> (forall s, exists e, body x s = Raise e) ->
  forall s, exists e, for_each body xs s = Raise e.
Proof.
  intros Hin Hx. induction xs as [|y xs IH]; [destruct Hin|].
  intros s. simpl. unfold mbind, result_bind.
  destruct Hin as [->|Hin].
  - destruct (Hx s) as [e ->]. eauto.
  - destruct (body y s) as [s'|e]; [apply (IH Hin) | eauto].
Qed.

Lemma run_dirs_app {S : Type} (v : RepoValidator S) l1 l2 invalids self :
  run_dirs v (l1 ++ l2) invalids self =
  match run_dirs v l1 invalids self with
  | Ok (invalids', self') => run_dirs v l2 invalids' self'
  | Raise e => Raise e
  end.
Proof.
  revert invalids self.
  induction l1 as [|[[top dirs] files] l1 IH]; intros invalids self; simpl;
    [reflexivity|].
  destruct (_validate v self top dirs files) as [[[r d'] s']|e];
    [apply IH | reflexivity].
Qed.

Lemma str_in_In x l : str_in x l = true <-> In x l.
Proof.
  unfold str_in. rewrite existsb_exists. split.
  - intros [y [Hy Heq]]. apply String.eqb_eq in Heq. now subst.
  - intros H. exists x. split; [assumption | apply String.eqb_refl].
Qed.

(** For a validator that does not prune, the recursive walk is the loop
    over the directories in top-down order. *)
Lemma walk_run_dirs {S : Type} (v : RepoValidator S) :
  keeps_dirs v ->
  forall t top invalids self,
    walk v top t invalids self = run_dirs v (os_walk top t) invalids self.
Proof.
  intros Hkeep t. induction t as [files dirs IH] using tree_induction.
  intros top invalids self. simpl.
  destruct (_validate v self top (map fst dirs) files) as [[[r d'] s']|e] eqn:Hv;
    [|reflexivity].
  apply Hkeep in Hv. subst d'.
  assert (Hall : forall nd, In nd dirs -> In (fst nd) (map fst dirs))
    by (intros nd Hnd; now apply in_map).
  generalize (invalids ++ r) as inv. generalize s' as s0.
  revert Hall IH. generalize (map fst dirs) as names.
  induction dirs as [|[n d] ds IHds]; intros names Hall IH s0 inv; [reflexivity|].
  assert (Hn : str_in n names = true)
    by (apply str_in_In; apply (Hall (n, d)); now left).
  rewrite Hn. rewrite run_dirs_app.
  inversion IH as [|? ? Hd Hds]; subst. simpl in Hd. rewrite Hd.
  destruct (run_dirs v (os_walk (os_path.join top n) d) inv s0) as [[inv' s1]|e];
    [|reflexivity].
  apply IHds; [|assumption].
  intros nd Hnd. apply Hall. now right.
Qed.

(** ** The first loop of [APIRegressionValidator._validate] *)

Lemma build_app offers1 offers2 reg :
  build (offers1 ++ offers2) reg = build offers2 (build offers1 reg).
Proof. unfold build. apply fold_left_app. Qed.

Lemma build_map_package package imports reg :
  build (map (fun import_ => (package, import_)) imports) reg =
  API._add_imports imports package reg.
Proof.
  unfold build, API._add_imports. revert reg.
  induction imports as [|i imports IH]; intros reg; simpl; [reflexivity | apply IH].
Qed.

Lemma visit_file_not_py root f st :
  is_py root f = false -> API.visit_file root f st = Ok st.
Proof.
  unfold is_py, API.visit_file. destruct st as [ti reg].
  destruct (os_path.splitext (os_path.join root (f_name f))) as [package ext].
  simpl. now intros ->.
Qed.

Lemma visit_file_raise root f st e :
  is_py root f = true -> API._parse_file f root = Raise e ->
  API.visit_file root f st = Raise e.
Proof.
  unfold is_py, API.visit_file. destruct st as [ti reg].
  destruct (os_path.splitext (os_path.join root (f_name f))) as [package ext].
  simpl. intros -> ->. reflexivity.
Qed.

Lemma visit_file_ok root f ti reg imports :
  is_py root f = true -> API._parse_file f root = Ok imports ->
  API.visit_file root f (ti, reg) =
  Ok (ti ++ file_tests root f, build (file_offers root f) reg).
Proof.
  unfold file_tests, file_offers, init_package, file_imports, in_tests, is_py,
    API.visit_file.
  destruct (os_path.splitext (os_path.join root (f_name f))) as [package ext].
  simpl. intros -> ->. simpl.
  destruct (String.eqb (snd (os_path.split root)) "tests");
    destruct (String.eqb (List.last (Str.split os_path.sep package) "") "__init__");
    simpl; rewrite ?build_map_package, ?app_nil_r; reflexivity.
Qed.

Lemma visit_files_ok root files ti reg :
  dir_parses root files ->
  for_each (API.visit_file root) files (ti, reg) =
  Ok (ti ++ dir_tests root files, build (dir_offers root files) reg).
Proof.
  revert ti reg. induction files as [|f files IH]; intros ti reg Hp.
  - simpl. now rewrite app_nil_r.
  - cbn [for_each]. unfold mbind, result_bind.
    assert (Hrest : dir_parses root files)
      by (intros g Hg; apply Hp; now right).
    destruct (is_py root f) eqn:Hpy.
    + destruct (Hp f (or_introl eq_refl) Hpy) as [imports Himp].
      rewrite (visit_file_ok _ _ _ _ _ Hpy Himp), (IH _ _ Hrest).
      unfold dir_tests, dir_offers. simpl. now rewrite build_app, app_assoc.
    + rewrite (visit_file_not_py _ _ _ Hpy), (IH _ _ Hrest).
      unfold dir_tests, dir_offers, file_tests, file_offers. simpl.
      now rewrite Hpy.
Qed.

Lemma visit_files_parses root files st st' :
  for_each (API.visit_file root) files st = Ok st' -> dir_parses root files.
Proof.
  revert st. induction files as [|f files IH]; intros st H g Hg Hpy;
    [destruct Hg|].
  cbn [for_each] in H. unfold mbind, result_bind in H.
  destruct (API.visit_file root f st) as [s1|e] eqn:Hf; [|discriminate].
  destruct Hg as [->|Hg]; [|exact (IH _ H g Hg Hpy)].
  destruct (API._parse_file g root) as [imports|e] eqn:Hparse; [eauto|].
  rewrite (visit_file_raise _ _ _ _ Hpy Hparse) in Hf. discriminate.
Qed.

(** ** The validators that leave [dirs] alone *)

Lemma api_keeps_dirs : keeps_dirs API.validator.
Proof.
  intros self top dirs files r d' s'. simpl. unfold API._validate.
  unfold mbind, result_bind.
  destruct (for_each _ _ _) as [[ti reg]|e]; [|discriminate].
  intros [= _ <- _]. reflexivity.
Qed.

Lemma exec_keeps_dirs : keeps_dirs ExecPermissionValidator.validator.
Proof.
  intros self top dirs files r d' s'. simpl.
  unfold ExecPermissionValidator._validate. intros [= _ <- _]. reflexivity.
Qed.

Lemma cython_keeps_dirs : keeps_dirs GeneratedCythonValidator.validator.
Proof.
  intros self top dirs files r d' s'. simpl.
  unfold GeneratedCythonValidator._validate. unfold mbind, result_bind.
  destruct (for_each _ _ _) as [inv|e]; [|discriminate].
  intros [= _ <- _]. reflexivity.
Qed.

(** ** The API regression check over a walk *)

Lemma api_validate_dir_ok self top dirs files :
  dir_parses top files ->
  API._validate self top dirs files =
  Ok (API.check_imports (build (dir_offers top files) (API._imports self))
        (dir_tests top files),
      dirs,
      {| API._imports := build (dir_offers top files) (API._imports self) |}).
Proof.
  intros Hp. unfold API._validate.
  rewrite (visit_files_ok _ _ _ _ Hp). reflexivity.
Qed.

Lemma api_validate_dir_parses self top dirs files r :
  API._validate self top dirs files = Ok r -> dir_parses top files.
Proof.
  unfold API._validate, mbind, result_bind.
  destruct (for_each _ _ _) as [st|e] eqn:H; [|discriminate].
  intros _. exact (visit_files_parses _ _ _ _ H).
Qed.

Lemma api_run_ok l invalids self :
  walk_parses l ->
  run_dirs API.validator l invalids self =
  Ok (invalids ++ checks_in_walk_order l (API._imports self),
      {| API._imports := build (walk_offers l) (API._imports self) |}).
Proof.
  revert invalids self.
  induction l as [|[[top dirs] files] l IH]; intros invalids self Hp.
  - simpl. rewrite app_nil_r. now destruct self.
  - assert (Hd : dir_parses top files) by (apply (Hp top dirs files); now left).
    assert (Hl : walk_parses l)
      by (intros t' d' f' H'; apply (Hp t' d' f'); now right).
    cbn [run_dirs _validate API.validator].
    rewrite (api_validate_dir_ok _ _ _ _ Hd), (IH _ _ Hl).
    cbn [checks_in_walk_order walk_offers flat_map API._imports].
    fold (walk_offers l). now rewrite build_app, app_assoc.
Qed.

Lemma api_run_parses l invalids self r :
  run_dirs API.validator l invalids self = Ok r -> walk_parses l.
Proof.
  revert invalids self.
  induction l as [|[[top dirs] files] l IH]; intros invalids self H t' d' f' Hin;
    [destruct Hin|].
  cbn [run_dirs _validate API.validator] in H.
  destruct (API._validate self top dirs files) as [[[r0 d0] s0]|e] eqn:Hv;
    [|discriminate].
  destruct Hin as [[= <- <- <-]|Hin].
  - exact (api_validate_dir_parses _ _ _ _ _ Hv).
  - exact (IH _ _ H t' d' f' Hin).
Qed.

Lemma api_run_raises l invalids self top dirs files f :
  In (top, dirs, files) l -> In f files -> is_py top f = true ->
  (exists e, API._parse_file f top = Raise e) ->
  exists e, run_dirs API.validator l invalids self = Raise e.
Proof.
  intros Hin Hf Hpy Hraise.
  destruct (run_dirs API.validator l invalids self) as [r|e] eqn:H; [|eauto].
  apply api_run_parses in H.
  destruct (H top dirs files Hin f Hf Hpy) as [imports Hok].
  destruct Hraise as [e He]. congruence.
Qed.

(** ** The registry *)

Lemma add_import_key package reg import_ :
  exists s,
    API.add_import package reg import_ !! API.key_of import_ = Some s /\
    API.depth s <= API.depth (API.candidate package import_) /\
    (s = API.candidate package import_ \/ reg !! API.key_of import_ = Some s).
Proof.
  unfold API.add_import.
  destruct (reg !! API.key_of import_) as [sub|] eqn:Hk.
  - destruct (Nat.ltb_spec (API.depth (API.candidate package import_)) (API.depth sub)).
    + eexists. rewrite lookup_insert_eq. split; [reflexivity|]. split; [lia | now left].
    + exists sub. split; [assumption|]. split; [lia | now right].
  - eexists. rewrite lookup_insert_eq. split; [reflexivity|]. split; [lia | now left].
Qed.

Lemma add_import_other package reg import_ k :
  k <> API.key_of import_ ->
  API.add_import package reg import_ !! k = reg !! k.
Proof.
  intros Hne. unfold API.add_import.
  destruct (reg !! API.key_of import_) as [sub|];
    [destruct (Nat.ltb _ _)|]; try reflexivity;
    now rewrite lookup_insert_ne by congruence.
Qed.

(** An entry stays, and its path never gets longer. *)
Lemma add_import_mono package reg import_ k s :
  reg !! k = Some s ->
  exists s', API.add_import package reg import_ !! k = Some s' /\
             API.depth s' <= API.depth s.
Proof.
  intros Hk. destruct (decide (k = API.key_of import_)) as [->|Hne].
  - unfold API.add_import. rewrite Hk.
    destruct (Nat.ltb_spec (API.depth (API.candidate package import_)) (API.depth s)).
    + eexists. rewrite lookup_insert_eq. split; [reflexivity | lia].
    + exists s. split; [assumption | lia].
  - exists s. rewrite add_import_other by assumption. split; [assumption | lia].
Qed.

(** Where the entry comes from. *)
Lemma add_import_origin package reg import_ k s :
  API.add_import package reg import_ !! k = Some s ->
  reg !! k = Some s \/
  (k = API.key_of import_ /\ s = API.candidate package import_).
Proof.
  intros H. destruct (decide (k = API.key_of import_)) as [->|Hne].
  - destruct (add_import_key package reg import_) as [s' [Hs' [_ Hor]]].
    rewrite Hs' in H. injection H as <-.
    destruct Hor as [->|Hr]; [right; split; reflexivity | now left].
  - rewrite add_import_other in H by assumption. now left.
Qed.

(** An offer that does not beat the entry changes nothing. *)
Lemma add_import_fixed package reg import_ s :
  reg !! API.key_of import_ = Some s ->
  API.depth s <= API.depth (API.candidate package import_) ->
  API.add_import package reg import_ = reg.
Proof.
  intros Hk Hle. unfold API.add_import. rewrite Hk.
  destruct (Nat.ltb_spec (API.depth (API.candidate package import_)) (API.depth s));
    [lia | reflexivity].
Qed.

Lemma build_cons package import_ offers reg :
  build ((package, import_) :: offers) reg =
  build offers (API.add_import package reg import_).
Proof. reflexivity. Qed.

(** Monotonic registry: along a build, an entry stays and its path never gets
    longer. *)
Lemma build_mono offers reg k s :
  reg !! k = Some s ->
  exists s', build offers reg !! k = Some s' /\ API.depth s' <= API.depth s.
Proof.
  revert reg s. induction offers as [|[package import_] offers IH]; intros reg s Hk.
  - exists s. split; [assumption | lia].
  - rewrite build_cons.
    destruct (add_import_mono package reg import_ k s Hk) as [s1 [H1 Hle1]].
    destruct (IH _ _ H1) as [s2 [H2 Hle2]].
    exists s2. split; [assumption | lia].
Qed.

(** The entry of a symbol is no longer than any path offered for it. *)
Lemma build_dominates offers reg k v :
  offered offers k v ->
  exists s, build offers reg !! k = Some s /\ API.depth s <= API.depth v.
Proof.
  revert reg. induction offers as [|[package import_] offers IH]; intros reg Hoff.
  - destruct Hoff as [p [i [[] _]]].
  - rewrite build_cons. destruct Hoff as [p [i [Hin [Hkey Hval]]]].
    destruct Hin as [[= -> ->]|Hin].
    + destruct (add_import_key p reg i) as [s1 [H1 [Hle1 _]]].
      rewrite Hkey in H1.
      destruct (build_mono offers _ _ _ H1) as [s2 [H2 Hle2]].
      exists s2. split; [assumption | rewrite <- Hval; lia].
    + apply IH. exists p, i. auto.
Qed.

(** The entry of a symbol is the entry it had or a path offered for it. *)
Lemma build_origin offers reg k s :
  build offers reg !! k = Some s -> reg !! k = Some s \/ offered offers k s.
Proof.
  revert reg. induction offers as [|[package import_] offers IH]; intros reg H.
  - now left.
  - rewrite build_cons in H. destruct (IH _ H) as [H1|[p [i [Hin [Hk Hv]]]]].
    + destruct (add_import_origin _ _ _ _ _ H1) as [Hr|[-> ->]]; [now left|].
      right. exists package, import_. split; [now left | split; reflexivity].
    + right. exists p, i. split; [now right | split; assumption].
Qed.

Lemma build_settled offers reg : settled offers reg -> build offers reg = reg.
Proof.
  induction offers as [|[package import_] offers IH]; intros Hs; [reflexivity|].
  rewrite build_cons.
  destruct (Hs package import_ (or_introl eq_refl)) as [s [Hk Hle]].
  rewrite (add_import_fixed _ _ _ _ Hk Hle).
  apply IH. intros p i Hin. apply Hs. now right.
Qed.

Lemma settled_build offers reg : settled offers (build offers reg).
Proof.
  intros package import_ Hin.
  apply build_dominates. exists package, import_. auto.
Qed.




Lemma checks_in_walk_order_split before d after reg :
  checks_in_walk_order (before ++ d :: after) reg =
  checks_in_walk_order before reg ++
  API.check_imports (build (walk_offers (before ++ [d])) reg)
    (dir_tests (fst (fst d)) (snd d)) ++
  checks_in_walk_order after (build (walk_offers (before ++ [d])) reg).
Proof.
  revert reg. induction before as [|[[top dirs] files] before IH]; intros reg.
  - destruct d as [[top dirs] files].
    cbn [app checks_in_walk_order walk_offers flat_map fst snd].
    now rewrite app_nil_r.
  - cbn [app checks_in_walk_order walk_offers flat_map].
    rewrite IH. fold (walk_offers (before ++ [d])).
    now rewrite build_app, app_assoc.
Qed.

Lemma api_validate_total self root t :
  walk_parses (os_walk root t) ->
  validate API.validator self root t =
  Ok (report API.validator
        (checks_in_walk_order (os_walk root t) (API._imports self)),
      {| API._imports := build (walk_offers (os_walk root t)) (API._imports self) |}).
Proof.
  intros Hp. unfold validate.
  rewrite (walk_run_dirs _ api_keeps_dirs), (api_run_ok _ _ _ Hp). reflexivity.
Qed.

Lemma api_validate_inv self root t r self' :
  validate API.validator self root t = Ok (r, self') ->
  walk_parses (os_walk root t) /\
  r = report API.validator
        (checks_in_walk_order (os_walk root t) (API._imports self)) /\
  self' = {| API._imports := build (walk_offers (os_walk root t)) (API._imports self) |}.
Proof.
  intros H.
  assert (Hp : walk_parses (os_walk root t)).
  { unfold validate in H. rewrite (walk_run_dirs _ api_keeps_dirs) in H.
    destruct (run_dirs _ _ _ _) as [r0|e] eqn:Hr; [|discriminate].
    exact (api_run_parses _ _ _ _ Hr). }
  rewrite (api_validate_total _ _ _ Hp) in H. injection H as <- <-. auto.
Qed.

Lemma api_validate_raises self root t top dirs files f :
  In (top, dirs, files) (os_walk root t) -> In f files -> is_py top f = true ->
  (exists e, API._parse_file f top = Raise e) ->
  exists e, validate API.validator self root t = Raise e.
Proof.
  intros Hin Hf Hpy Hraise. unfold validate.
  rewrite (walk_run_dirs _ api_keeps_dirs).
  destruct (api_run_raises _ [] self _ _ _ _ Hin Hf Hpy Hraise) as [e ->].
  eauto.
Qed.

Lemma report_of_split_walk
    self root t r self' before top dirs files after :
  validate API.validator self root t = Ok (r, self') ->
  os_walk root t = before ++ (top, dirs, files) :: after ->
  r = report API.validator
        (checks_in_walk_order before (API._imports self) ++
         API.check_imports
           (build (walk_offers (before ++ [(top, dirs, files)])) (API._imports self))
           (dir_tests top files) ++
         checks_in_walk_order after
           (build (walk_offers (before ++ [(top, dirs, files)])) (API._imports self))).
Proof.
  intros H Hsplit. apply api_validate_inv in H. destruct H as [_ [-> _]].
  rewrite Hsplit, checks_in_walk_order_split. reflexivity.
Qed.

(** ** C1: the order of build and check *)

(** C1 (the code at the failing input): in [late_alias_tree] the test file
    of [skbio/a/tests] is compared with the registry before
    [skbio/x/__init__.py], which the walk visits later, has been added.  The
    run succeeds with an empty report and [main] returns 0, although the
    registry it ends with holds [skbio.x.foo] and a comparison of the test
    files with that registry reports the test file: the check is not made
    after a full build. *)
Theorem late_alias_test_is_not_flagged :
  validate API.validator API.__init__ "skbio" late_alias_tree =
  Ok (true, [], {| API._imports := {["foo" := "skbio.x.foo"]} |}) /\
  main late_alias_tree = ("", Ok 0) /\
  walk_tests (os_walk "skbio" late_alias_tree) =
  [("skbio/a/tests/__init__.py", []);
   ("skbio/a/tests/test_x.py", ["skbio.x.y.z.foo"])] /\
  API.check_imports {["foo" := "skbio.x.foo"]}
    (walk_tests (os_walk "skbio" late_alias_tree)) =
  ["skbio/a/tests/test_x.py: skbio.x.y.z.foo => skbio.x.foo"] /\
  ~ checked_after_full_build API.__init__ "skbio" late_alias_tree.
Proof.
  assert (Hrun : validate API.validator API.__init__ "skbio" late_alias_tree =
                 Ok (true, [], {| API._imports := {["foo" := "skbio.x.foo"]} |}))
    by (vm_compute; reflexivity).
  split; [exact Hrun|].
  split; [vm_compute; reflexivity|].
  split; [vm_compute; reflexivity|].
  split; [vm_compute; reflexivity|].
  intros H. specialize (H _ _ Hrun). vm_compute in H. discriminate H.
Qed.

(** The order the code has: build precedes check directory by directory.
    When the walk reaches a directory, the imports of its [__init__.py] are added to
    the registry, on top of those of the directories visited before it, and
    only then are the test files of that directory compared; the directories
    the walk visits later have not contributed to the registry these test
    files are compared with. *)
Theorem check_follows_build_of_visited_directories
    self root t r self' before top dirs files after :
  validate API.validator self root t = Ok (r, self') ->
  os_walk root t = before ++ (top, dirs, files) :: after ->
  r = report API.validator
        (checks_in_walk_order before (API._imports self) ++
         API.check_imports
           (build (walk_offers (before ++ [(top, dirs, files)])) (API._imports self))
           (dir_tests top files) ++
         checks_in_walk_order after
           (build (walk_offers (before ++ [(top, dirs, files)])) (API._imports self))).
Proof.
  intros H Hsplit.
  destruct (api_validate_inv _ _ _ _ _ H) as [_ [Hr _]].
  rewrite Hr, Hsplit. apply (f_equal (report API.validator)).
  apply checks_in_walk_order_split.
Qed.

Lemma check_follows_build_of_visited_directories_witness :
  (true, []) =
  report API.validator
    (checks_in_walk_order
       [("skbio", ["a"; "x"], [py "__init__.py" []]);
        ("skbio/a", ["tests"], [py "__init__.py" []])] ∅ ++
     API.check_imports
       (build (walk_offers
                 ([("skbio", ["a"; "x"], [py "__init__.py" []]);
                   ("skbio/a", ["tests"], [py "__init__.py" []])] ++
                  [("skbio/a/tests", [],
                    [py "__init__.py" [];
                     py "test_x.py" [from_import "skbio.x.y.z" "foo"]])])) ∅)
       (dir_tests "skbio/a/tests"
          [py "__init__.py" [];
           py "test_x.py" [from_import "skbio.x.y.z" "foo"]]) ++
     checks_in_walk_order
       [("skbio/x", [], [py "__init__.py" [from_import "skbio.x.y.z" "foo"]])]
       (build (walk_offers
                 ([("skbio", ["a"; "x"], [py "__init__.py" []]);
                   ("skbio/a", ["tests"], [py "__init__.py" []])] ++
                  [("skbio/a/tests", [],
                    [py "__init__.py" [];
                     py "test_x.py" [from_import "skbio.x.y.z" "foo"]])])) ∅)).
Proof.
  apply (check_follows_build_of_visited_directories
           API.__init__ "skbio" late_alias_tree (true, [])
           {| API._imports := {["foo" := "skbio.x.foo"]} |}).
  - reflexivity.
  - reflexivity.
Defined.

(** ** C2: what the registry holds after a walk *)

Lemma walk_offers_from l package import_ :
  In (package, import_) (walk_offers l) <->
  exists top dirs files f,
    In (top, dirs, files) l /\ In f files /\ is_py top f = true /\
    init_package top f = Some package /\ In import_ (file_imports f top).
Proof.
  unfold walk_offers, dir_offers. rewrite in_flat_map. split.
  - intros [[[top dirs] files] [Hl Hin]]. apply in_flat_map in Hin.
    destruct Hin as [f [Hf Hoff]]. unfold file_offers in Hoff.
    destruct (is_py top f) eqn:Hpy; [|destruct Hoff].
    destruct (init_package top f) as [pkg|] eqn:Hinit; [|destruct Hoff].
    apply in_map_iff in Hoff. destruct Hoff as [i [[= <- <-] Hi]].
    exists top, dirs, files, f. auto.
  - intros [top [dirs [files [f [Hl [Hf [Hpy [Hinit Hi]]]]]]]].
    exists (top, dirs, files). split; [assumption|].
    apply in_flat_map. exists f. split; [assumption|].
    unfold file_offers. rewrite Hpy, Hinit.
    apply in_map_iff. exists import_. auto.
Qed.

(** C2 (as stated, refuted): in [tests_init_tree] no non-test file imports
    anything, and yet the registry has an entry for [foo], offered by
    [skbio/tests/__init__.py]. *)
Lemma registry_entry_from_tests_init :
  ~ minimal_over_nontest "skbio" tests_init_tree.
Proof.
  intros H.
  assert (Hrun : validate API.validator API.__init__ "skbio" tests_init_tree =
                 Ok (false,
                     ["The following tests import `A` but should import `B` (file: A => B):";
                      "    skbio/tests/__init__.py: skbio.a.b.foo => skbio.tests.foo"],
                     {| API._imports := {["foo" := "skbio.tests.foo"]} |}))
    by reflexivity.
  destruct (H _ _ Hrun "foo" "skbio.tests.foo") as [[package [import_ [Hin _]]] _].
  - vm_compute. reflexivity.
  - vm_compute in Hin. exact Hin.
Qed.

(** C2 (amended): after a walk that starts from the empty registry, the path
    stored for a symbol is one of the paths offered for it by the
    [__init__.py] files of the walked directories, no offered path for the
    symbol has fewer segments, and every symbol with an offer has an entry.
    The offers are those of the [.py] files whose path without extension
    ends in the segment [__init__], in every directory, [tests] directories
    included; other files offer nothing. *)
Theorem registry_minimal_over_init_files root t r self' :
  validate API.validator API.__init__ root t = Ok (r, self') ->
  (forall key s, API._imports self' !! key = Some s ->
     offered (walk_offers (os_walk root t)) key s /\
     forall v, offered (walk_offers (os_walk root t)) key v ->
               API.depth s <= API.depth v) /\
  (forall key v, offered (walk_offers (os_walk root t)) key v ->
     exists s, API._imports self' !! key = Some s) /\
  (forall package import_,
     In (package, import_) (walk_offers (os_walk root t)) <->
     exists top dirs files f,
       In (top, dirs, files) (os_walk root t) /\ In f files /\
       is_py top f = true /\ init_package top f = Some package /\
       In import_ (file_imports f top)).
Proof.
  intros H. apply api_validate_inv in H. destruct H as [_ [_ ->]].
  cbn [API._imports API.__init__].
  split; [|split].
  - intros key s Hs. split.
    + destruct (build_origin _ _ _ _ Hs) as [Hempty|Hoff]; [|assumption].
      rewrite lookup_empty in Hempty. discriminate.
    + intros v Hv.
      destruct (build_dominates _ ∅ _ _ Hv) as [s' [Hs' Hle]].
      rewrite Hs in Hs'. injection Hs' as <-. assumption.
  - intros key v Hv.
    destruct (build_dominates _ ∅ _ _ Hv) as [s' [Hs' _]]. eauto.
  - apply walk_offers_from.
Qed.

Lemma registry_minimal_over_init_files_witness :
  offered (walk_offers (os_walk "skbio" tests_init_tree)) "foo" "skbio.tests.foo" /\
  forall v, offered (walk_offers (os_walk "skbio" tests_init_tree)) "foo" v ->
            API.depth "skbio.tests.foo" <= API.depth v.
Proof.
  apply (registry_minimal_over_init_files "skbio" tests_init_tree
           (false,
            ["The following tests import `A` but should import `B` (file: A => B):";
             "    skbio/tests/__init__.py: skbio.a.b.foo => skbio.tests.foo"])
           {| API._imports := {["foo" := "skbio.tests.foo"]} |} eq_refl).
  reflexivity.
Defined.

(** ** C5: running [validate] again *)




(** ** Exceptions: where they come from and where they go *)

Lemma for_each_raise_origin {A S : Type} (body : A -> S -> result S) xs s e :
  for_each body xs s = Raise e -> exists x s', In x xs /\ body x s' = Raise e.
Proof.
  revert s. induction xs as [|x xs IH]; intros s H; [discriminate|].
  cbn [for_each] in H. unfold mbind, result_bind in H.
  destruct (body x s) as [s1|e1] eqn:Hx.
  - destruct (IH _ H) as [y [s' [Hy Hb]]]. exists y, s'. split; [now right | assumption].
  - injection H as ->. exists x, s. split; [now left | assumption].
Qed.

Lemma comprehension_raise_origin {A B : Type} (f : A -> result B) xs e :
  comprehension f xs = Raise e -> exists x, In x xs /\ f x = Raise e.
Proof.
  induction xs as [|x xs IH]; intros H; [discriminate|].
  cbn [comprehension] in H. unfold mbind, result_bind in H.
  destruct (f x) as [y|e1] eqn:Hx.
  - destruct (comprehension f xs) as [ys|e2]; [discriminate|].
    destruct (IH H) as [z [Hz Hf]]. exists z. split; [now right | assumption].
  - injection H as ->. exists x. split; [now left | assumption].
Qed.

(** The only exception of the loop over the nodes is the [TypeError] of
    [prefix + None]. *)
Lemma parse_node_raise root node imports e :
  API.parse_node root node imports = Raise e -> e = TypeError.
Proof.
  destruct node as [names|module names level|]; cbn [API.parse_node];
    [discriminate| |discriminate].
  unfold mbind, result_bind.
  destruct (comprehension _ names) as [new|e1] eqn:Hc; [discriminate|].
  intros [= <-]. apply comprehension_raise_origin in Hc.
  destruct Hc as [x [_ Hx]]. unfold API.str_add in Hx.
  destruct module; [discriminate | now injection Hx].
Qed.

Lemma parse_node_no_module root names level imports :
  names <> [] ->
  API.parse_node root (ImportFrom None names level) imports = Raise TypeError.
Proof.
  destruct names as [|x names]; [congruence|]. intros _. reflexivity.
Qed.

Lemma parse_file_no_module f root body names level :
  f_source f = Module_ body -> In (ImportFrom None names level) body ->
  names <> [] -> API._parse_file f root = Raise TypeError.
Proof.
  intros Hsrc Hin Hnames. unfold API._parse_file. rewrite Hsrc.
  destruct (for_each_raises (API.parse_node root) body _ Hin
              (fun s => ex_intro _ TypeError
                          (parse_node_no_module root names level s Hnames)) [])
    as [e He].
  rewrite He. destruct (for_each_raise_origin _ _ _ _ He) as [x [s' [_ Hx]]].
  apply parse_node_raise in Hx. now subst.
Qed.

Lemma parse_file_malformed f root :
  f_source f = Malformed -> API._parse_file f root = Raise SyntaxError.
Proof. intros H. unfold API._parse_file. now rewrite H. Qed.

Lemma walk_total {S : Type} (v : RepoValidator S) :
  (forall self top dirs files, exists r, _validate v self top dirs files = Ok r) ->
  forall t top invalids self, exists r, walk v top t invalids self = Ok r.
Proof.
  intros Hv t. induction t as [files dirs IH] using tree_induction.
  intros top invalids self. cbn [walk].
  destruct (Hv self top (map fst dirs) files) as [[[r d'] s'] ->].
  generalize (invalids ++ r) as inv. generalize s' as s0.
  induction dirs as [|[n d] ds IHds]; intros s0 inv; [eauto|].
  inversion IH as [|? ? Hd Hds]; subst. simpl in Hd.
  destruct (str_in n d'); [|now apply IHds].
  destruct (Hd (os_path.join top n) inv s0) as [[inv' s1] ->]. now apply IHds.
Qed.

Lemma init_validate_total self root t :
  exists r, run_validate (Validator InitValidator.validator self) root t = Ok r.
Proof.
  unfold run_validate, validate.
  destruct (walk_total InitValidator.validator
              (fun self top dirs files => ex_intro _ _ eq_refl) t root [] self)
    as [[inv s] ->].
  cbn. eauto.
Qed.

Lemma exec_validate_total self root t :
  exists r, run_validate (Validator ExecPermissionValidator.validator self) root t = Ok r.
Proof.
  unfold run_validate, validate.
  destruct (walk_total ExecPermissionValidator.validator
              (fun self top dirs files => ex_intro _ _ eq_refl) t root [] self)
    as [[inv s] ->].
  cbn. eauto.
Qed.

(** An exception of the API regression check is the end of [main]. *)
Lemma main_raises t :
  (exists e, validate API.validator API.__init__ "skbio" t = Raise e) ->
  exists out e, main t = (out, Raise e).
Proof.
  intros [e He]. unfold main, validators. cbn [main_loop].
  destruct (init_validate_total (InitValidator.__init__ None) "skbio" t)
    as [[s1 m1] ->].
  assert (Hrest : forall rc out, exists out' e',
             main_loop
               [Validator ExecPermissionValidator.validator
                  (ExecPermissionValidator.__init__ None);
                Validator GeneratedCythonValidator.validator
                  GeneratedCythonValidator.__init__;
                Validator API.validator API.__init__] "skbio" t rc out =
             (out', Raise e')).
  { intros rc out. cbn [main_loop].
    destruct (exec_validate_total (ExecPermissionValidator.__init__ None) "skbio" t)
      as [[s2 m2] ->].
    assert (Hapi : forall rc out, exists out' e',
               main_loop [Validator API.validator API.__init__] "skbio" t rc out =
               (out', Raise e')).
    { intros rc' out'. cbn [main_loop]. unfold run_validate at 1.
      rewrite He. cbn. eauto. }
    assert (Hcy : forall rc out, exists out' e',
               main_loop
                 [Validator GeneratedCythonValidator.validator
                    GeneratedCythonValidator.__init__;
                  Validator API.validator API.__init__] "skbio" t rc out =
               (out', Raise e')).
    { intros rc' out'. cbn [main_loop].
      destruct (run_validate (Validator GeneratedCythonValidator.validator _) _ _)
        as [[s3 m3]|e3]; [|eauto].
      destruct s3; apply Hapi. }
    destruct s2; apply Hcy. }
  destruct s1; apply Hrest.
Qed.

Lemma visit_files_raise_origin root files st e :
  for_each (API.visit_file root) files st = Raise e ->
  exists f, In f files /\ is_py root f = true /\ API._parse_file f root = Raise e.
Proof.
  intros H. apply for_each_raise_origin in H. destruct H as [f [[ti reg] [Hf Hv]]].
  exists f. split; [assumption|].
  destruct (is_py root f) eqn:Hpy.
  - split; [reflexivity|].
    destruct (API._parse_file f root) as [imports|e'] eqn:Hparse.
    + rewrite (visit_file_ok _ _ _ _ _ Hpy Hparse) in Hv. discriminate.
    + rewrite (visit_file_raise _ _ _ _ Hpy Hparse) in Hv. congruence.
  - rewrite (visit_file_not_py _ _ _ Hpy) in Hv. discriminate.
Qed.

Lemma api_run_raise_origin l invalids self e :
  run_dirs API.validator l invalids self = Raise e ->
  exists top dirs files f,
    In (top, dirs, files) l /\ In f files /\ is_py top f = true /\
    API._parse_file f top = Raise e.
Proof.
  revert invalids self.
  induction l as [|[[top dirs] files] l IH]; intros invalids self H; [discriminate|].
  cbn [run_dirs _validate API.validator] in H.
  destruct (API._validate self top dirs files) as [[[r d'] s']|e1] eqn:Hv.
  - destruct (IH _ _ H) as [top' [dirs' [files' [f [Hin Hrest]]]]].
    exists top', dirs', files', f. split; [now right | assumption].
  - injection H as ->. unfold API._validate, mbind, result_bind in Hv.
    destruct (for_each _ files _) as [[ti reg]|e2] eqn:Hloop; [discriminate|].
    injection Hv as ->. apply visit_files_raise_origin in Hloop.
    destruct Hloop as [f Hf]. exists top, dirs, files, f. split; [now left | assumption].
Qed.

Lemma api_validate_raise_origin self root t e :
  validate API.validator self root t = Raise e ->
  exists top dirs files f,
    In (top, dirs, files) (os_walk root t) /\ In f files /\ is_py top f = true /\
    API._parse_file f top = Raise e.
Proof.
  unfold validate. rewrite (walk_run_dirs _ api_keeps_dirs).
  destruct (run_dirs _ _ _ _) as [[inv s]|e1] eqn:H; [discriminate|].
  intros [= <-]. exact (api_run_raise_origin _ _ _ _ H).
Qed.

(** ** C3: a file that does not parse *)

(** C3 (as stated, refuted): with the malformed [skbio/bad.py] the check does
    not return at all, so it is not marked failed and nothing is reported;
    [main] ends with the [SyntaxError] and has written nothing. *)
Lemma malformed_file_is_not_reported :
  ~ check_marked_failed malformed_tree /\
  main malformed_tree = ("", Raise SyntaxError).
Proof.
  split; [|reflexivity].
  intros [msg [self' H]]. vm_compute in H. discriminate H.
Qed.

(** C3 (amended): [ast.parse] raises [SyntaxError] on a malformed [.py] file
    and nothing catches it.  [validate] of the API regression check ends
    with an exception, the one raised by a [.py] file of the walk; no
    result and no report come out of the check, and [main] ends with an
    exception as well. *)
Theorem malformed_file_ends_run self root t top dirs files f :
  In (top, dirs, files) (os_walk root t) -> In f files ->
  is_py top f = true -> f_source f = Malformed ->
  API._parse_file f top = Raise SyntaxError /\
  (exists e,
     validate API.validator self root t = Raise e /\
     exists top' dirs' files' f',
       In (top', dirs', files') (os_walk root t) /\ In f' files' /\
       is_py top' f' = true /\ API._parse_file f' top' = Raise e) /\
  (root = "skbio" -> exists out e, main t = (out, Raise e)).
Proof.
  intros Hin Hf Hpy Hsrc.
  pose proof (parse_file_malformed f top Hsrc) as Hparse.
  assert (Hraise : forall self0, exists e, validate API.validator self0 root t = Raise e).
  { intros self0. apply (api_validate_raises self0 root t top dirs files f); eauto. }
  split; [assumption|]. split.
  - destruct (Hraise self) as [e He]. exists e. split; [assumption|].
    exact (api_validate_raise_origin _ _ _ _ He).
  - intros ->. apply main_raises. apply Hraise.
Qed.

Lemma malformed_file_ends_run_witness :
  API._parse_file (File "bad.py" Malformed false (Some 0)) "skbio" = Raise SyntaxError /\
  (exists e,
     validate API.validator API.__init__ "skbio" malformed_tree = Raise e /\
     exists top' dirs' files' f',
       In (top', dirs', files') (os_walk "skbio" malformed_tree) /\ In f' files' /\
       is_py top' f' = true /\ API._parse_file f' top' = Raise e) /\
  ("skbio" = "skbio" -> exists out e, main malformed_tree = (out, Raise e)).
Proof.
  apply (malformed_file_ends_run API.__init__ "skbio" malformed_tree "skbio" []
           [py "__init__.py" []; File "bad.py" Malformed false (Some 0);
            py "good.py" [OtherStmt]]).
  - simpl. left. reflexivity.
  - simpl. right. left. reflexivity.
  - reflexivity.
  - reflexivity.
Defined.

(** ** C10: a relative import without a module *)

(** C10: a [.py] file with a top-level [from . import name], whose module
    is [None], makes [_parse_file] raise [TypeError] at [prefix + None];
    nothing catches it, so [validate] and [main] end with an exception and
    the report of the check is never made. *)
Theorem bare_relative_import_raises
    self root t top dirs files f body names level :
  In (top, dirs, files) (os_walk root t) -> In f files ->
  is_py top f = true -> f_source f = Module_ body ->
  In (ImportFrom None names level) body -> names <> [] ->
  API._parse_file f top = Raise TypeError /\
  (exists e, validate API.validator self root t = Raise e) /\
  (root = "skbio" -> exists out e, main t = (out, Raise e)).
Proof.
  intros Hin Hf Hpy Hsrc Hnode Hnames.
  pose proof (parse_file_no_module f top body names level Hsrc Hnode Hnames)
    as Hparse.
  assert (Hraise : forall self0, exists e, validate API.validator self0 root t = Raise e).
  { intros self0. apply (api_validate_raises self0 root t top dirs files f); eauto. }
  split; [assumption|]. split; [apply Hraise|].
  intros ->. apply main_raises. apply Hraise.
Qed.

Lemma bare_relative_import_raises_witness :
  main bare_relative_tree = ("", Raise TypeError) /\
  API._parse_file (py "__init__.py" [ImportFrom None [Alias "x" None] 1]) "skbio" =
  Raise TypeError /\
  (exists e, validate API.validator API.__init__ "skbio" bare_relative_tree = Raise e) /\
  ("skbio" = "skbio" -> exists out e, main bare_relative_tree = (out, Raise e)).
Proof.
  split; [reflexivity|].
  apply (bare_relative_import_raises API.__init__ "skbio" bare_relative_tree "skbio" []
           [py "__init__.py" [ImportFrom None [Alias "x" None] 1]]
           (py "__init__.py" [ImportFrom None [Alias "x" None] 1])
           [ImportFrom None [Alias "x" None] 1] [Alias "x" None] 1).
  - simpl. left. reflexivity.
  - simpl. left. reflexivity.
  - reflexivity.
  - reflexivity.
  - simpl. left. reflexivity.
  - discriminate.
Defined.

(** ** C8: a tree without files *)

Lemma walk_no_files {S : Type} (v : RepoValidator S) :
  (forall self top dirs, _validate v self top dirs [] = Ok ([], dirs, self)) ->
  forall t, no_files t = true ->
  forall top invalids self, walk v top t invalids self = Ok (invalids, self).
Proof.
  intros Hv t. induction t as [files dirs IH] using tree_induction.
  intros Hnf top invalids self. cbn [walk]. cbn [no_files] in Hnf.
  destruct files; [|discriminate Hnf]. rewrite Bool.andb_true_l in Hnf.
  rewrite Hv, app_nil_r.
  generalize (map fst dirs) as names. revert invalids self.
  induction dirs as [|[n d] ds IHds]; intros invalids self names; [reflexivity|].
  apply andb_prop in Hnf. destruct Hnf as [Hd Hds].
  inversion IH as [|? ? IHd IHrest]; subst. simpl in IHd.
  destruct (str_in n names); [rewrite (IHd Hd)|]; now apply IHds.
Qed.

Lemma exec_validate_no_files self root t :
  no_files t = true ->
  validate ExecPermissionValidator.validator self root t = Ok (true, [], self).
Proof.
  intros Hnf. unfold validate. rewrite walk_no_files; auto.
Qed.

Lemma cython_validate_no_files self root t :
  no_files t = true ->
  validate GeneratedCythonValidator.validator self root t = Ok (true, [], self).
Proof.
  intros Hnf. unfold validate. rewrite walk_no_files; auto.
Qed.

Lemma api_validate_no_files self root t :
  no_files t = true ->
  validate API.validator self root t = Ok (true, [], self).
Proof.
  intros Hnf. unfold validate. rewrite walk_no_files; auto.
  intros [reg] top dirs. reflexivity.
Qed.

(** The init check flags every directory it visits in a tree without files,
    the root first. *)
Lemma init_walk_no_files self t :
  no_files t = true ->
  forall top invalids, exists extra,
    walk InitValidator.validator top t invalids self =
    Ok (invalids ++ top :: extra, self).
Proof.
  induction t as [files dirs IH] using tree_induction.
  intros Hnf top invalids. cbn [walk]. cbn [no_files] in Hnf.
  destruct files; [|discriminate Hnf]. rewrite Bool.andb_true_l in Hnf.
  cbn [_validate InitValidator.validator]. unfold InitValidator._validate.
  cbn [has_file existsb negb].
  generalize (fold_left
                (fun dirs0 skip_dir =>
                   if str_in skip_dir dirs0 then list_remove skip_dir dirs0 else dirs0)
                (InitValidator.skip_dirs self) (map fst dirs)) as names.
  intros names.
  assert (Hloop : forall inv0, exists extra,
    (fix walk_dirs (ds : list (string * tree)) (invalids0 : list string)
         (self0 : InitValidator.t) {struct ds} :
       result (list string * InitValidator.t) :=
       match ds with
       | [] => Ok (invalids0, self0)
       | (n, d) :: ds' =>
           if str_in n names
           then
             match walk InitValidator.validator (os_path.join top n) d invalids0 self0 with
             | Ok (invalids1, self1) => walk_dirs ds' invalids1 self1
             | Raise e => Raise e
             end
           else walk_dirs ds' invalids0 self0
       end) dirs inv0 self = Ok (inv0 ++ extra, self)).
  { induction dirs as [|[n d] ds IHds]; intros inv0.
    - exists []. now rewrite app_nil_r.
    - apply andb_prop in Hnf. destruct Hnf as [Hd Hds].
      inversion IH as [|? ? IHd IHrest]; subst. simpl in IHd.
      destruct (str_in n names).
      + destruct (IHd Hd (os_path.join top n) inv0) as [e1 ->].
        destruct (IHds IHrest Hds (inv0 ++ os_path.join top n :: e1)) as [e2 ->].
        exists (os_path.join top n :: e1 ++ e2).
        now rewrite <- app_assoc.
      + apply (IHds IHrest Hds). }
  destruct (Hloop (invalids ++ [top])) as [extra ->].
  exists extra. now rewrite <- app_assoc.
Qed.

(** C8 (as stated, refuted): on the empty tree the init check fails, for the
    root directory has no [__init__.py]. *)
Lemma empty_tree_fails_init_check : ~ all_checks_pass empty_tree.
Proof.
  intros H.
  specialize (H (Validator InitValidator.validator (InitValidator.__init__ None))
                (or_introl eq_refl)).
  vm_compute in H. discriminate H.
Qed.

(** C8 (amended): on a tree without files the execute-permission check, the
    generated-Cython check and the API regression check succeed with an
    empty report, while the init check fails: its report is its reason
    followed by the root directory (and the other directories it visits). *)
Theorem tree_without_files_checks root t :
  no_files t = true ->
  (forall self, validate ExecPermissionValidator.validator self root t =
                Ok (true, [], self)) /\
  (forall self, validate GeneratedCythonValidator.validator self root t =
                Ok (true, [], self)) /\
  (forall self, validate API.validator self root t = Ok (true, [], self)) /\
  (forall self, exists extra,
     validate InitValidator.validator self root t =
     Ok (false,
         (InitValidator.reason +:+ ":") :: indented root :: map indented extra,
         self)).
Proof.
  intros Hnf. repeat split; intros self.
  - now apply exec_validate_no_files.
  - now apply cython_validate_no_files.
  - now apply api_validate_no_files.
  - unfold validate.
    destruct (init_walk_no_files self t Hnf root []) as [extra ->].
    exists extra. reflexivity.
Qed.

Lemma tree_without_files_checks_witness :
  validate InitValidator.validator (InitValidator.__init__ None) "skbio" empty_tree =
  Ok (false, ["Directories missing init files:"; "    skbio"],
      InitValidator.__init__ None) /\
  validate API.validator API.__init__ "skbio" empty_tree =
  Ok (true, [], API.__init__).
Proof.
  destruct (tree_without_files_checks "skbio" empty_tree eq_refl)
    as [_ [_ [Hapi _]]].
  split; [reflexivity | apply Hapi].
Defined.

(** ** C4: what [_minimal_import] flags *)

Lemma minimal_import_spec reg import_ substitute :
  API._minimal_import reg import_ = Some substitute <->
  reg !! API.key_of import_ = Some substitute /\
  API.depth substitute <> API.depth import_.
Proof.
  unfold API._minimal_import.
  destruct (reg !! API.key_of import_) as [s|]; [|split; [discriminate | intros [? _]; discriminate]].
  destruct (Nat.eqb_spec (API.depth s) (API.depth import_)) as [Heq|Hne].
  - split; [discriminate | intros [[= ->] Hne]; contradiction].
  - split; [intros [= ->]; auto | intros [[= ->] _]; reflexivity].
Qed.

(** C4 (the code at the failing input): a test import with fewer segments
    than the registered path is flagged like any other, with the longer
    path as its substitute, and the run fails on it. *)
Theorem shorter_test_import_is_flagged :
  API._minimal_import {["util" := "skbio.a.b.util"]} "skbio.util" =
  Some "skbio.a.b.util" /\
  API.depth "skbio.util" < API.depth "skbio.a.b.util" /\
  validate API.validator API.__init__ "skbio" short_import_tree =
  Ok (false,
      ["The following tests import `A` but should import `B` (file: A => B):";
       "    skbio/a/b/tests/test_util.py: skbio.util => skbio.a.b.util"],
      {| API._imports := {["util" := "skbio.a.b.util"]} |}) /\
  snd (main short_import_tree) = Ok 1.
Proof.
  split; [reflexivity|]. split; [vm_compute; lia|].
  split; vm_compute; reflexivity.
Qed.

(** ** C9: return code and reports *)

Lemma main_loop_results vs root t results return_code stderr :
  Forall2 (fun o r => run_validate o root t = Ok r) vs results ->
  main_loop vs root t return_code stderr =
  (stderr_of results stderr,
   Ok (if forallb fst results then return_code else 1)).
Proof.
  intros H. revert return_code stderr.
  induction H as [|o [success msg] vs results Ho _ IH]; intros return_code stderr;
    [reflexivity|].
  cbn [main_loop]. rewrite Ho. cbn [stderr_of fold_left forallb fst snd andb].
  destruct success; rewrite IH; [reflexivity|].
  unfold stderr_of. f_equal. f_equal. now destruct (forallb fst results).
Qed.

Lemma main_loop_returns vs root t return_code stderr out rc :
  main_loop vs root t return_code stderr = (out, Ok rc) ->
  exists results, Forall2 (fun o r => run_validate o root t = Ok r) vs results.
Proof.
  revert return_code stderr.
  induction vs as [|o vs IH]; intros return_code stderr H.
  - exists []. constructor.
  - cbn [main_loop] in H.
    destruct (run_validate o root t) as [[success msg]|e] eqn:Ho; [|discriminate].
    destruct success; destruct (IH _ _ H) as [results Hres];
      eexists (_ :: results); constructor; eauto.
Qed.

Lemma check_imports_lines reg tests line :
  In line (API.check_imports reg tests) ->
  exists fp imports import_ substitute,
    In (fp, imports) tests /\ In import_ imports /\
    reg !! API.key_of import_ = Some substitute /\
    line = fp +:+ ": " +:+ import_ +:+ " => " +:+ substitute.
Proof.
  unfold API.check_imports. intros H. apply in_flat_map in H.
  destruct H as [[fp imports] [Ht H]]. apply in_flat_map in H.
  destruct H as [import_ [Hi H]].
  destruct (API._minimal_import reg import_) as [substitute|] eqn:Hm; [|destruct H].
  destruct H as [<-|[]]. apply minimal_import_spec in Hm. destruct Hm as [Hk _].
  exists fp, imports, import_, substitute. auto.
Qed.

(** C9: [main] returns 0 when every check succeeded and 1 when one failed,
    and it returns whenever the four checks do; a check fails exactly when
    it has flagged something; the report of a failed check is its reason
    (with a colon) followed by the flagged items, one per line, indented by
    four spaces; and a line of the API regression check reads
    [<file>: <used import> => <registered import>]. *)
Theorem return_code_and_reports :
  (forall t results,
     Forall2 (fun o r => run_validate o "skbio" t = Ok r) validators results ->
     main t = (stderr_of results "",
               Ok (if forallb fst results then 0 else 1))) /\
  (forall t out rc,
     main t = (out, Ok rc) ->
     exists results,
       Forall2 (fun o r => run_validate o "skbio" t = Ok r) validators results /\
       (rc = 0 <-> forallb fst results = true) /\
       (rc = 1 <-> forallb fst results = false)) /\
  (forall (S : Type) (v : RepoValidator S) self root t success msg self',
     validate v self root t = Ok (success, msg, self') ->
     exists invalids,
       walk v root t [] self = Ok (invalids, self') /\
       (success = false <-> invalids <> []) /\
       msg = if success then []
             else (reason v +:+ ":") :: map indented invalids) /\
  (forall self top dirs files errors dirs' self' line,
     API._validate self top dirs files = Ok (errors, dirs', self') ->
     In line errors ->
     exists fp imports import_ substitute,
       In (fp, imports) (dir_tests top files) /\ In import_ imports /\
       API._imports self' !! API.key_of import_ = Some substitute /\
       line = fp +:+ ": " +:+ import_ +:+ " => " +:+ substitute).
Proof.
  split; [|split; [|split]].
  - intros t results H. unfold main. now rewrite (main_loop_results _ _ _ _ _ _ H).
  - intros t out rc H. unfold main in H.
    destruct (main_loop_returns _ _ _ _ _ _ _ H) as [results Hres].
    exists results. split; [assumption|].
    rewrite (main_loop_results _ _ _ _ _ _ Hres) in H.
    injection H as _ <-. destruct (forallb fst results); split; split; congruence.
  - intros S v self root t success msg self' H. unfold validate in H.
    destruct (walk v root t [] self) as [[invalids s1]|e]; [|discriminate].
    exists invalids. unfold report in H.
    destruct invalids as [|i invalids]; injection H as <- <- <-.
    + split; [reflexivity|]. split; [split; [discriminate | congruence] | reflexivity].
    + split; [reflexivity|]. split; [split; [discriminate | reflexivity] | reflexivity].
  - intros self top dirs files errors dirs' self' line H Hline.
    pose proof (api_validate_dir_parses _ _ _ _ _ H) as Hp.
    rewrite (api_validate_dir_ok _ _ _ _ Hp) in H. injection H as <- _ <-.
    exact (check_imports_lines _ _ _ Hline).
Qed.

Lemma return_code_and_reports_witness :
  main scenario_A_tree =
  (stderr_of
     [(true, []); (true, []); (true, []);
      (false,
       ["The following tests import `A` but should import `B` (file: A => B):";
        "    skbio/sub/tests/test_mod.py: skbio.sub.mod.foo => skbio.sub.foo"])] "",
   Ok 1).
Proof.
  apply (proj1 return_code_and_reports scenario_A_tree
           [(true, []); (true, []); (true, []);
            (false,
             ["The following tests import `A` but should import `B` (file: A => B):";
              "    skbio/sub/tests/test_mod.py: skbio.sub.mod.foo => skbio.sub.foo"])]).
  unfold validators.
  constructor; [vm_compute; reflexivity|].
  constructor; [vm_compute; reflexivity|].
  constructor; [vm_compute; reflexivity|].
  constructor; [vm_compute; reflexivity|].
  constructor.
Defined.

(** ** C6: scenario A *)

Lemma report_flags {S : Type} (v : RepoValidator S) invalids line :
  In line invalids ->
  fst (report v invalids) = false /\ In (indented line) (snd (report v invalids)).
Proof.
  intros Hin. unfold report. destruct invalids as [|i invalids]; [destruct Hin|].
  split; [reflexivity|]. cbn [snd]. right.
  apply (in_map indented) in Hin. exact Hin.
Qed.

(** Scenario A where the code flags it: [skbio/sub/__init__.py] imports
    [foo] from [skbio.sub.mod], which makes [skbio.sub.foo] the path offered
    for [foo]; when the walk has
    visited that file by the time it reaches the directory of a test file
    with [from skbio.sub.mod import foo], and nothing visited so far offers
    another path of three segments or fewer for [foo], the check fails and
    reports the test file with [skbio.sub.foo] as the import to use. *)
Theorem scenario_A_is_flagged
    root t r self' before top dirs files after fp imports :
  validate API.validator API.__init__ root t = Ok (r, self') ->
  os_walk root t = before ++ (top, dirs, files) :: after ->
  In ("skbio.sub", "skbio.sub.mod.foo")
     (walk_offers (before ++ [(top, dirs, files)])) ->
  (forall v, offered (walk_offers (before ++ [(top, dirs, files)])) "foo" v ->
             v = "skbio.sub.foo" \/ 3 < API.depth v) ->
  In (fp, imports) (dir_tests top files) ->
  In "skbio.sub.mod.foo" imports ->
  fst r = false /\
  In (indented (fp +:+ ": skbio.sub.mod.foo => skbio.sub.foo")) (snd r).
Proof.
  intros H Hsplit Hoffer Hothers Htest Himport.
  rewrite (report_of_split_walk
             _ _ _ _ _ _ _ _ _ _ H Hsplit).
  set (offers := walk_offers (before ++ [(top, dirs, files)])) in *.
  assert (Hoff : offered offers "foo" "skbio.sub.foo").
  { exists "skbio.sub", "skbio.sub.mod.foo". split; [assumption|].
    split; reflexivity. }
  destruct (build_dominates offers ∅ _ _ Hoff) as [s [Hs Hle]].
  assert (Heq : s = "skbio.sub.foo").
  { destruct (build_origin _ _ _ _ Hs) as [Hempty|Hs_off].
    - rewrite lookup_empty in Hempty. discriminate.
    - destruct (Hothers _ Hs_off) as [->|Hlong]; [reflexivity|].
      change (API.depth "skbio.sub.foo") with 3 in Hle. lia. }
  subst s.
  apply report_flags. apply in_or_app. right. apply in_or_app. left.
  unfold API.check_imports. apply in_flat_map. exists (fp, imports).
  split; [assumption|]. apply in_flat_map. exists "skbio.sub.mod.foo".
  split; [assumption|].
  assert (Hm : API._minimal_import (build offers (API._imports API.__init__))
                 "skbio.sub.mod.foo" = Some "skbio.sub.foo").
  { apply minimal_import_spec. split; [exact Hs|]. vm_compute. lia. }
  rewrite Hm. left. reflexivity.
Qed.

Lemma scenario_A_is_flagged_witness :
  fst (false,
       ["The following tests import `A` but should import `B` (file: A => B):";
        "    skbio/sub/tests/test_mod.py: skbio.sub.mod.foo => skbio.sub.foo"]) =
  false /\
  In (indented ("skbio/sub/tests/test_mod.py" +:+
                ": skbio.sub.mod.foo => skbio.sub.foo"))
     (snd (false,
           ["The following tests import `A` but should import `B` (file: A => B):";
            "    skbio/sub/tests/test_mod.py: skbio.sub.mod.foo => skbio.sub.foo"])).
Proof.
  apply (scenario_A_is_flagged "skbio" scenario_A_tree _
           {| API._imports := {["foo" := "skbio.sub.foo"]} |}
           [("skbio", ["sub"], [py "__init__.py" []]);
            ("skbio/sub", ["tests"],
             [py "__init__.py" [from_import "skbio.sub.mod" "foo"];
              py "mod.py" [OtherStmt]])]
           "skbio/sub/tests" []
           [py "__init__.py" [];
            py "test_mod.py" [from_import "skbio.sub.mod" "foo"]]
           [] _ ["skbio.sub.mod.foo"]).
  - vm_compute. reflexivity.
  - reflexivity.
  - vm_compute. left. reflexivity.
  - intros v [package [import_ [Hin [_ Hv]]]]. vm_compute in Hin.
    destruct Hin as [Heq|[]]. injection Heq as <- <-. left. now rewrite <- Hv.
  - vm_compute. right. left. reflexivity.
  - left. reflexivity.
Defined.

(** C6 (the code at the failing input): with the test file in
    [skbio/tests] and that directory listed before [skbio/sub], the test
    file is compared with a registry that has no entry for [foo] yet.  The
    run succeeds with an empty report and [main] returns 0, although the
    registry it ends with gives [skbio.sub.foo] as the substitute for the
    test's import.  With the two directories listed the other way round the
    same files give the report of scenario A. *)
Theorem scenario_A_tests_first_is_missed :
  validate API.validator API.__init__ "skbio" scenario_A_tests_first_tree =
  Ok (true, [], {| API._imports := {["foo" := "skbio.sub.foo"]} |}) /\
  main scenario_A_tests_first_tree = ("", Ok 0) /\
  walk_tests (os_walk "skbio" scenario_A_tests_first_tree) =
  [("skbio/tests/__init__.py", []);
   ("skbio/tests/test_mod.py", ["skbio.sub.mod.foo"])] /\
  API._minimal_import {["foo" := "skbio.sub.foo"]} "skbio.sub.mod.foo" =
  Some "skbio.sub.foo" /\
  validate API.validator API.__init__ "skbio" scenario_A_sub_first_tree =
  Ok (false,
      ["The following tests import `A` but should import `B` (file: A => B):";
       "    skbio/tests/test_mod.py: skbio.sub.mod.foo => skbio.sub.foo"],
      {| API._imports := {["foo" := "skbio.sub.foo"]} |}).
Proof.
  split; [vm_compute; reflexivity|].
  split; [vm_compute; reflexivity|].
  split; [vm_compute; reflexivity|].
  split; vm_compute; reflexivity.
Qed.

(** ** C7: relative imports *)

Lemma append_nil_l (s : string) : "" +:+ s = s.
Proof. reflexivity. Qed.

Lemma append_cons (x : ascii) (a s : string) :
  String x a +:+ s = String x (a +:+ s).
Proof. reflexivity. Qed.

(** Unfold [+:+] one character at a time, then compute. *)
Ltac str_simpl := rewrite ?append_nil_l, ?append_cons; simpl.

Lemma append_assoc (a b c : string) : (a +:+ b) +:+ c = a +:+ (b +:+ c).
Proof.
  induction a as [|x a IH]; [reflexivity|].
  rewrite !append_cons. now rewrite IH.
Qed.

Lemma rcut_no_char c s : Str.has_char c s = false -> Str.rcut c s = ("", s).
Proof.
  induction s as [|a s IH]; simpl; [reflexivity|].
  intros H. apply Bool.orb_false_elim in H. destruct H as [Ha Hs].
  now rewrite (IH Hs), Ha.
Qed.

Lemma rcut_app_sep c a b :
  Str.has_char c b = false ->
  Str.rcut c (a +:+ String c b) = (a +:+ String c "", b).
Proof.
  intros Hb. induction a as [|x a IH]; str_simpl.
  - now rewrite (rcut_no_char _ _ Hb), Ascii.eqb_refl.
  - rewrite IH. now destruct a.
Qed.

Lemma rstrip_no_char c s : Str.has_char c s = false -> Str.rstrip c s = s.
Proof.
  induction s as [|a s IH]; simpl; [reflexivity|].
  intros H. apply Bool.orb_false_elim in H. destruct H as [Ha Hs].
  rewrite (IH Hs), Ha. now destruct s.
Qed.

Lemma rstrip_app_keep c a x :
  x <> "" -> Str.has_char c x = false -> Str.rstrip c (a +:+ x) = a +:+ x.
Proof.
  intros Hx Hc. induction a as [|y a IH]; str_simpl.
  - now apply rstrip_no_char.
  - rewrite IH. destruct (a +:+ x) eqn:E; [|reflexivity].
    destruct a; [rewrite append_nil_l in E; congruence | discriminate].
Qed.

Lemma rstrip_sep_end c s : Str.rstrip c (s +:+ String c "") = Str.rstrip c s.
Proof.
  induction s as [|a s IH]; str_simpl.
  - now rewrite Ascii.eqb_refl.
  - now rewrite IH.
Qed.

Lemma all_char_app_false c a x b :
  x <> "" -> Str.has_char c x = false -> Str.all_char c (a +:+ x +:+ b) = false.
Proof.
  intros Hx Hc. induction a as [|y a IH]; str_simpl.
  - destruct x as [|h x]; [congruence|]. str_simpl. simpl in Hc.
    apply Bool.orb_false_elim in Hc. destruct Hc as [-> _]. reflexivity.
  - rewrite IH. apply Bool.andb_false_r.
Qed.

Lemma join_snoc sep segs x :
  Str.join sep (segs ++ [x]) =
  match segs with
  | [] => x
  | _ => Str.join sep segs +:+ sep +:+ x
  end.
Proof.
  induction segs as [|y segs IH]; [reflexivity|].
  destruct segs as [|z segs]; [reflexivity|].
  change (Str.join sep ((y :: z :: segs) ++ [x]))
    with (y +:+ sep +:+ Str.join sep ((z :: segs) ++ [x])).
  rewrite IH.
  change (Str.join sep (y :: z :: segs))
    with (y +:+ sep +:+ Str.join sep (z :: segs)).
  now rewrite !append_assoc.
Qed.

(** A path of directory names ends with a name. *)
Lemma join_ends_with_segment segs :
  segs <> [] -> Forall segment segs ->
  exists a x, Str.join "/" segs = a +:+ x /\ segment x.
Proof.
  intros Hne Hall. destruct (exists_last Hne) as [segs' [x ->]].
  apply Forall_app in Hall. destruct Hall as [_ Hx].
  inversion Hx as [|? ? Hseg _]; subst.
  rewrite join_snoc. destruct segs' as [|y segs'].
  - exists "", x. auto.
  - exists (Str.join "/" (y :: segs') +:+ "/"), x.
    split; [now rewrite append_assoc | assumption].
Qed.

(** [os.path.split] takes the last name off a path of directory names. *)
Lemma os_path_split_join segs x :
  Forall segment segs -> segment x ->
  os_path.split (Str.join "/" (segs ++ [x])) = (Str.join "/" segs, x).
Proof.
  intros Hall [Hx Hc]. unfold os_path.split. rewrite join_snoc.
  destruct segs as [|y segs].
  - now rewrite (rcut_no_char _ _ Hc).
  - set (J := Str.join "/" (y :: segs)).
    change (J +:+ "/" +:+ x) with (J +:+ String os_path.sep x).
    rewrite (rcut_app_sep _ _ _ Hc).
    destruct (join_ends_with_segment (y :: segs) ltac:(discriminate) Hall)
      as [a [z [HJ [Hz Hzc]]]].
    fold J in HJ.
    assert (Hhead : Str.is_empty (J +:+ String os_path.sep "") = false)
      by (destruct J; reflexivity).
    assert (Hall_sep : Str.all_char os_path.sep (J +:+ String os_path.sep "") = false)
      by (rewrite HJ, append_assoc; now apply all_char_app_false).
    rewrite Hhead, Hall_sep. cbn [negb andb].
    rewrite rstrip_sep_end, HJ. now rewrite (rstrip_app_keep _ _ _ Hz Hzc), <- HJ.
Qed.

Lemma Forall_removelast {A : Type} (P : A -> Prop) (l : list A) :
  Forall P l -> Forall P (removelast l).
Proof.
  induction 1 as [|x l Hx Hl IH]; [constructor|].
  destruct l as [|y l]; [constructor|].
  cbn [removelast]. constructor; assumption.
Qed.

(** The loop of [os.path.split] walks up the directory names. *)
Lemma drop_levels_join n segs :
  Forall segment segs ->
  API.drop_levels n (Str.join "/" segs) = Str.join "/" (spec_walk_up n segs).
Proof.
  revert segs. induction n as [|n IH]; intros segs Hall; [reflexivity|].
  cbn [API.drop_levels spec_walk_up].
  destruct segs as [|y segs] using rev_ind.
  - apply (IH [] Hall).
  - clear IHsegs. apply Forall_app in Hall. destruct Hall as [Hsegs Hy].
    inversion Hy as [|? ? Hseg _]; subst.
    rewrite (os_path_split_join _ _ Hsegs Hseg), removelast_last.
    now apply IH.
Qed.

Lemma replace_app a b s1 s2 :
  Str.replace a b (s1 +:+ s2) = Str.replace a b s1 +:+ Str.replace a b s2.
Proof. induction s1 as [|x s1 IH]; str_simpl; [reflexivity | now rewrite IH]. Qed.

Lemma replace_no_char a b s : Str.has_char a s = false -> Str.replace a b s = s.
Proof.
  induction s as [|x s IH]; simpl; [reflexivity|].
  intros H. apply Bool.orb_false_elim in H. destruct H as [Hx Hs].
  now rewrite Hx, (IH Hs).
Qed.

(** Separators become dots, the names stay. *)
Lemma replace_join segs :
  Forall segment segs ->
  Str.replace os_path.sep os_path.dot (Str.join "/" segs) = Str.join "." segs.
Proof.
  induction 1 as [|x segs [_ Hx] Hsegs IH]; [reflexivity|].
  destruct segs as [|y segs]; [now apply replace_no_char|].
  change (Str.join "/" (x :: y :: segs)) with (x +:+ "/" +:+ Str.join "/" (y :: segs)).
  change (Str.join "." (x :: y :: segs)) with (x +:+ "." +:+ Str.join "." (y :: segs)).
  rewrite !replace_app, IH, (replace_no_char _ _ _ Hx). reflexivity.
Qed.

Lemma spec_walk_up_segments n segs :
  Forall segment segs -> Forall segment (spec_walk_up n segs).
Proof.
  revert segs. induction n as [|n IH]; intros segs Hall; [assumption|].
  cbn [spec_walk_up]. apply IH. now apply Forall_removelast.
Qed.

(** The prefix the code computes is the dotted base of the spec. *)
Lemma import_prefix_spec segs level :
  Forall segment segs -> 0 < level ->
  API.import_prefix (Str.join "/" segs) level =
  Str.join "." (spec_base segs level) +:+ ".".
Proof.
  intros Hall Hlevel. unfold API.import_prefix, spec_base.
  destruct (Nat.ltb_spec 0 level) as [_|Hle]; [|lia].
  rewrite (drop_levels_join _ _ Hall).
  now rewrite (replace_join _ (spec_walk_up_segments _ _ Hall)).
Qed.

Lemma comprehension_ext {A B : Type} (f g : A -> result B) xs :
  (forall x, f x = g x) -> comprehension f xs = comprehension g xs.
Proof.
  intros Hfg. induction xs as [|x xs IH]; [reflexivity|].
  cbn [comprehension]. now rewrite Hfg, IH.
Qed.

Lemma parse_node_relative segs level module names imports :
  Forall segment segs -> 0 < level ->
  API.parse_node (Str.join "/" segs) (ImportFrom (Some module) names level) imports =
  API.parse_node (Str.join "/" segs)
    (ImportFrom (Some (spec_absolute_module segs level module)) names 0) imports.
Proof.
  intros Hall Hlevel. cbn [API.parse_node].
  rewrite (import_prefix_spec _ _ Hall Hlevel).
  rewrite (comprehension_ext _
             (fun x => m ← API.str_add (API.import_prefix (Str.join "/" segs) 0)
                          (Some (spec_absolute_module segs level module));
                       Ok (Str.join "." [m; name x]))); [reflexivity|].
  intros x. unfold API.str_add, API.import_prefix, spec_absolute_module.
  cbn [Nat.ltb Nat.leb]. now rewrite append_nil_l, append_assoc.
Qed.

(** C7: in a file of the directory [segs], a relative from-import of level
    [level] yields the same imports as the absolute from-import of the
    module that the spec resolves it to: the directory names without the
    last [level - 1], dotted, followed by the stated module.  The two files
    differ in that one statement only, and are parsed to the same result. *)
Theorem relative_import_normalization
    segs level module names pre post f_relative f_absolute :
  Forall segment segs -> 0 < level ->
  f_source f_relative =
    Module_ (pre ++ ImportFrom (Some module) names level :: post) ->
  f_source f_absolute =
    Module_ (pre ++ ImportFrom (Some (spec_absolute_module segs level module))
                      names 0 :: post) ->
  API._parse_file f_relative (Str.join "/" segs) =
  API._parse_file f_absolute (Str.join "/" segs).
Proof.
  intros Hall Hlevel Hrel Habs. unfold API._parse_file. rewrite Hrel, Habs.
  rewrite !for_each_app.
  destruct (for_each (API.parse_node (Str.join "/" segs)) pre []) as [imports|e];
    [|reflexivity].
  cbn [for_each]. now rewrite (parse_node_relative _ _ _ _ _ Hall Hlevel).
Qed.

Lemma relative_import_normalization_witness :
  API._parse_file
    (py "test_x.py" [Import [Alias "skbio" None];
                     ImportFrom (Some "mod") [Alias "foo" None; Alias "bar" None] 2;
                     OtherStmt])
    "skbio/sub/tests" =
  API._parse_file
    (py "test_x.py" [Import [Alias "skbio" None];
                     ImportFrom (Some "skbio.sub.mod")
                       [Alias "foo" None; Alias "bar" None] 0;
                     OtherStmt])
    "skbio/sub/tests".
Proof.
  apply (relative_import_normalization ["skbio"; "sub"; "tests"] 2 "mod"
           [Alias "foo" None; Alias "bar" None]
           [Import [Alias "skbio" None]] [OtherStmt]).
  - repeat constructor; discriminate.
  - lia.
  - reflexivity.
  - reflexivity.
Defined.

(** * Further properties of the code *)

(** ** Splitting at a character *)

Lemma split_nonempty c s : Str.split c s <> [].
Proof.
  destruct s as [|a s]; simpl; [discriminate|].
  destruct (Ascii.eqb a c); [discriminate|].
  destruct (Str.split c s); discriminate.
Qed.

Lemma split_no_char c s :
  Forall (fun x => Str.has_char c x = false) (Str.split c s).
Proof.
  induction s as [|a s IH]; simpl; [repeat constructor|].
  destruct (Ascii.eqb a c) eqn:Ha; [constructor; [reflexivity | assumption]|].
  destruct (Str.split c s) as [|h t]; [repeat constructor; simpl; now rewrite Ha|].
  inversion IH as [|? ? Hh Ht]; subst.
  constructor; [simpl; now rewrite Ha, Hh | assumption].
Qed.

Lemma split_app_sep c a k :
  Str.has_char c k = false ->
  Str.split c (a +:+ String c k) = Str.split c a ++ [k].
Proof.
  intros Hk. induction a as [|x a IH]; str_simpl.
  - rewrite Ascii.eqb_refl. f_equal.
    clear -Hk. induction k as [|y k IH]; simpl; [reflexivity|].
    simpl in Hk. apply Bool.orb_false_elim in Hk. destruct Hk as [Hy Hk].
    now rewrite Hy, (IH Hk).
  - rewrite IH. destruct (Ascii.eqb x c); [reflexivity|].
    destruct (Str.split c a) as [|h t] eqn:E; [now apply split_nonempty in E|].
    reflexivity.
Qed.

Lemma last_in {A : Type} (l : list A) d : l <> [] -> In (List.last l d) l.
Proof.
  induction l as [|x l IH]; [congruence|]. intros _.
  destruct l as [|y l]; [now left|]. right. apply IH. discriminate.
Qed.

(** The symbol of an import has no dot in it. *)
Lemma key_of_no_dot import_ : Str.has_char os_path.dot (API.key_of import_) = false.
Proof.
  unfold API.key_of.
  pose proof (split_no_char os_path.dot import_) as Hall.
  rewrite List.Forall_forall in Hall. apply Hall.
  apply last_in. apply split_nonempty.
Qed.

Lemma split_package_key package key :
  Str.has_char os_path.dot key = false ->
  Str.split os_path.dot (Str.join "." [package; key]) =
  Str.split os_path.dot package ++ [key].
Proof.
  intros Hk. change (Str.join "." [package; key])
    with (package +:+ String os_path.dot key).
  now apply split_app_sep.
Qed.

Lemma candidate_key package import_ :
  API.key_of (API.candidate package import_) = API.key_of import_.
Proof.
  unfold API.candidate.
  destruct (Nat.ltb _ _); [|reflexivity].
  unfold API.key_of at 1.
  rewrite (split_package_key _ _ (key_of_no_dot import_)).
  apply last_last.
Qed.

Lemma candidate_depth package import_ :
  API.depth (API.candidate package import_) <= API.depth import_.
Proof.
  unfold API.candidate.
  destruct (Nat.ltb_spec (API.depth package + 1) (API.depth import_)) as [Hlt|Hge];
    [|lia].
  unfold API.depth in *.
  rewrite (split_package_key _ _ (key_of_no_dot import_)), length_app.
  cbn [length]. lia.
Qed.

(** ** The registry under [_add_imports] *)

Lemma offered_map_package package imports k v :
  offered (map (fun import_ => (package, import_)) imports) k v <->
  exists import_, In import_ imports /\ API.key_of import_ = k /\
                  API.candidate package import_ = v.
Proof.
  unfold offered. split.
  - intros [p [i [Hin [Hk Hv]]]]. apply in_map_iff in Hin.
    destruct Hin as [i' [[= <- <-] Hi]]. eauto.
  - intros [i [Hi [Hk Hv]]]. exists package, i.
    split; [apply in_map_iff; eauto | auto].
Qed.

Lemma build_lookup_None offers reg k :
  build offers reg !! k = None <->
  reg !! k = None /\ forall v, ~ offered offers k v.
Proof.
  split.
  - intros H. split.
    + destruct (reg !! k) as [s|] eqn:Hk; [|reflexivity].
      destruct (build_mono offers _ _ _ Hk) as [s' [Hs' _]]. congruence.
    + intros v Hv. destruct (build_dominates offers reg _ _ Hv) as [s [Hs _]].
      congruence.
  - intros [Hk Hno]. destruct (build offers reg !! k) as [s|] eqn:Hs; [|reflexivity].
    destruct (build_origin _ _ _ _ Hs) as [H|H]; [congruence | now apply Hno in H].
Qed.

(** The stored path is no longer than the path that was there before. *)
Lemma build_le_initial offers reg k s s0 :
  build offers reg !! k = Some s -> reg !! k = Some s0 ->
  API.depth s <= API.depth s0.
Proof.
  intros Hs H0. destruct (build_mono offers _ _ _ H0) as [s' [Hs' Hle]].
  rewrite Hs in Hs'. now injection Hs' as <-.
Qed.

(** X1: [_add_imports] never removes an entry of the registry and never
    replaces a path by one with more segments. *)
Theorem add_imports_monotone imports package reg k s :
  reg !! k = Some s ->
  exists s', API._add_imports imports package reg !! k = Some s' /\
             API.depth s' <= API.depth s.
Proof.
  intros Hk. rewrite <- build_map_package. now apply build_mono.
Qed.

Lemma add_imports_monotone_witness :
  exists s', API._add_imports ["skbio.sub.mod.foo"] "skbio.sub"
               {["foo" := "skbio.a.b.c.foo"]} !! "foo" = Some s' /\
             API.depth s' <= API.depth "skbio.a.b.c.foo".
Proof.
  apply (add_imports_monotone ["skbio.sub.mod.foo"] "skbio.sub"
           {["foo" := "skbio.a.b.c.foo"]} "foo" "skbio.a.b.c.foo").
  vm_compute. reflexivity.
Defined.

(** X2: [_add_imports] is idempotent: handing the same imports of the same
    package to the registry a second time changes nothing. *)
Theorem add_imports_idempotent imports package reg :
  API._add_imports imports package (API._add_imports imports package reg) =
  API._add_imports imports package reg.
Proof.
  rewrite <- !build_map_package.
  apply build_settled. apply settled_build.
Qed.

(** X3: the path stored for a symbol ends in that symbol.  [_add_imports]
    keeps this invariant, so that the substitute [_minimal_import] returns
    for an import names the symbol the import names. *)
Theorem add_imports_keeps_symbol imports package reg :
  (forall k s, reg !! k = Some s -> API.key_of s = k) ->
  (forall k s, API._add_imports imports package reg !! k = Some s ->
               API.key_of s = k) /\
  (forall import_ substitute,
     API._minimal_import (API._add_imports imports package reg) import_ =
     Some substitute ->
     API.key_of substitute = API.key_of import_).
Proof.
  intros Hinv.
  assert (Hkeys : forall k s, API._add_imports imports package reg !! k = Some s ->
                              API.key_of s = k).
  { intros k s Hs. rewrite <- build_map_package in Hs.
    destruct (build_origin _ _ _ _ Hs) as [H0|[p [i [_ [Hk Hv]]]]].
    - now apply Hinv.
    - now rewrite <- Hv, candidate_key. }
  split; [assumption|].
  intros import_ substitute Hm. apply minimal_import_spec in Hm.
  destruct Hm as [Hs _]. now apply Hkeys.
Qed.

Lemma add_imports_keeps_symbol_witness :
  API.key_of "skbio.sub.foo" = "foo".
Proof.
  refine (proj1 (add_imports_keeps_symbol
                   ["skbio.sub.mod.foo"; "skbio.util"] "skbio.sub" ∅ _)
            "foo" "skbio.sub.foo" _).
  - intros k s H. rewrite lookup_empty in H. discriminate H.
  - vm_compute. reflexivity.
Defined.

(** X4: an import that has just been handed to [_add_imports] is never given
    a substitute with as many or more segments: [_minimal_import] returns
    nothing for it, or a path with strictly fewer segments. *)
Theorem added_import_substitute_is_shorter imports package reg import_ substitute :
  In import_ imports ->
  API._minimal_import (API._add_imports imports package reg) import_ =
  Some substitute ->
  API.depth substitute < API.depth import_.
Proof.
  intros Hin Hm. apply minimal_import_spec in Hm. destruct Hm as [Hs Hne].
  rewrite <- build_map_package in Hs.
  assert (Hoff : offered (map (fun i => (package, i)) imports)
                   (API.key_of import_) (API.candidate package import_))
    by (apply offered_map_package; eauto).
  destruct (build_dominates _ reg _ _ Hoff) as [s' [Hs' Hle]].
  rewrite Hs in Hs'. injection Hs' as <-.
  pose proof (candidate_depth package import_). lia.
Qed.

Lemma added_import_substitute_is_shorter_witness :
  API.depth "skbio.sub.foo" < API.depth "skbio.sub.mod.foo".
Proof.
  apply (added_import_substitute_is_shorter
           ["skbio.util"; "skbio.sub.mod.foo"] "skbio.sub" ∅).
  - right. left. reflexivity.
  - vm_compute. reflexivity.
Defined.

(** X5: the order in which imports are offered can change which path is
    stored for a symbol, but not the number of its segments, and not whether
    the symbol has an entry. *)
Theorem registry_depth_order_independent offers1 offers2 reg k :
  Permutation offers1 offers2 ->
  API.depth <$> (build offers1 reg !! k) = API.depth <$> (build offers2 reg !! k).
Proof.
  intros Hperm.
  assert (Hoff : forall v, offered offers1 k v <-> offered offers2 k v).
  { intros v. unfold offered. split; intros [p [i [Hin H]]]; exists p, i;
      (split; [|assumption]).
    - now apply (Permutation_in _ Hperm).
    - now apply (Permutation_in _ (Permutation_sym Hperm)). }
  destruct (build offers1 reg !! k) as [s1|] eqn:H1;
    destruct (build offers2 reg !! k) as [s2|] eqn:H2; cbn.
  - f_equal. apply Nat.le_antisymm.
    + destruct (build_origin _ _ _ _ H2) as [H0|Ho].
      * exact (build_le_initial _ _ _ _ _ H1 H0).
      * apply Hoff in Ho. destruct (build_dominates _ reg _ _ Ho) as [s [Hs Hle]].
        rewrite H1 in Hs. now injection Hs as <-.
    + destruct (build_origin _ _ _ _ H1) as [H0|Ho].
      * exact (build_le_initial _ _ _ _ _ H2 H0).
      * apply Hoff in Ho. destruct (build_dominates _ reg _ _ Ho) as [s [Hs Hle]].
        rewrite H2 in Hs. now injection Hs as <-.
  - apply build_lookup_None in H2. destruct H2 as [H0 Hno].
    destruct (build_origin _ _ _ _ H1) as [H|H]; [congruence|].
    apply Hoff in H. now apply Hno in H.
  - apply build_lookup_None in H1. destruct H1 as [H0 Hno].
    destruct (build_origin _ _ _ _ H2) as [H|H]; [congruence|].
    apply Hoff in H. now apply Hno in H.
  - reflexivity.
Qed.

Lemma registry_depth_order_independent_witness :
  API.depth <$> (build [("skbio.a", "skbio.a.m.foo"); ("skbio.b", "skbio.b.m.foo")]
                   ∅ !! "foo") =
  API.depth <$> (build [("skbio.b", "skbio.b.m.foo"); ("skbio.a", "skbio.a.m.foo")]
                   ∅ !! "foo") /\
  build [("skbio.a", "skbio.a.m.foo"); ("skbio.b", "skbio.b.m.foo")] ∅ !! "foo" <>
  build [("skbio.b", "skbio.b.m.foo"); ("skbio.a", "skbio.a.m.foo")] ∅ !! "foo".
Proof.
  split.
  - apply (registry_depth_order_independent
             [("skbio.a", "skbio.a.m.foo"); ("skbio.b", "skbio.b.m.foo")]
             [("skbio.b", "skbio.b.m.foo"); ("skbio.a", "skbio.a.m.foo")]).
    apply perm_swap.
  - vm_compute. discriminate.
Defined.

(** ** The import extractor *)

Lemma comprehension_ok {A B : Type} (f : A -> B) xs :
  comprehension (fun x => Ok (f x)) xs = Ok (map f xs).
Proof.
  induction xs as [|x xs IH]; [reflexivity|].
  cbn [comprehension]. unfold mbind, result_bind. now rewrite IH.
Qed.

Lemma comprehension_map {A B C : Type} (f : B -> result C) (g : A -> B) xs :
  comprehension f (map g xs) = comprehension (fun x => f (g x)) xs.
Proof.
  induction xs as [|x xs IH]; [reflexivity|].
  cbn [map comprehension]. now rewrite IH.
Qed.

(** What a node adds does not depend on what has been collected so far. *)
Lemma parse_node_acc root node imports :
  API.parse_node root node imports =
  (new ← API.parse_node root node []; Ok (imports ++ new)).
Proof.
  destruct node as [names|module names level|]; cbn [API.parse_node].
  - reflexivity.
  - unfold mbind, result_bind. now destruct (comprehension _ names).
  - unfold mbind, result_bind. now rewrite app_nil_r.
Qed.

Lemma for_each_parse_acc root body imports :
  for_each (API.parse_node root) body imports =
  (l ← for_each (API.parse_node root) body []; Ok (imports ++ l)).
Proof.
  revert imports. induction body as [|node body IH]; intros imports.
  - cbn. now rewrite app_nil_r.
  - cbn [for_each]. rewrite (parse_node_acc root node imports).
    unfold mbind, result_bind in *.
    destruct (API.parse_node root node []) as [new|e]; [|reflexivity].
    rewrite (IH (imports ++ new)), (IH new).
    destruct (for_each (API.parse_node root) body []) as [l|e]; [|reflexivity].
    now rewrite app_assoc.
Qed.

Lemma body_concat root body1 body2 :
  for_each (API.parse_node root) (body1 ++ body2) [] =
  (l1 ← for_each (API.parse_node root) body1 [];
   l2 ← for_each (API.parse_node root) body2 [];
   Ok (l1 ++ l2)).
Proof.
  rewrite for_each_app. unfold mbind, result_bind.
  destruct (for_each (API.parse_node root) body1 []) as [l1|e]; [|reflexivity].
  apply for_each_parse_acc.
Qed.

(** X6: the imports of a module are the imports of its first part followed
    by those of the rest; an exception in either part is the exception of
    the whole. *)
Theorem parse_file_concat f1 f2 f root body1 body2 :
  f_source f1 = Module_ body1 -> f_source f2 = Module_ body2 ->
  f_source f = Module_ (body1 ++ body2) ->
  API._parse_file f root =
  (l1 ← API._parse_file f1 root; l2 ← API._parse_file f2 root; Ok (l1 ++ l2)).
Proof.
  intros H1 H2 H. unfold API._parse_file. rewrite H1, H2, H, body_concat.
  unfold mbind, result_bind.
  destruct (for_each (API.parse_node root) body1 []) as [l1|e]; [|reflexivity].
  destruct (for_each (API.parse_node root) body2 []) as [l2|e]; [|reflexivity].
  now rewrite List.filter_app.
Qed.

Lemma parse_file_concat_witness :
  API._parse_file
    (py "m.py" ([from_import "skbio.a" "x"; Import [Alias "os" None]] ++
                [from_import "skbio.b" "y"])) "skbio" =
  (l1 ← API._parse_file
          (py "m.py" [from_import "skbio.a" "x"; Import [Alias "os" None]]) "skbio";
   l2 ← API._parse_file (py "m.py" [from_import "skbio.b" "y"]) "skbio";
   Ok (l1 ++ l2)).
Proof.
  apply (parse_file_concat _ _ _ "skbio"
           [from_import "skbio.a" "x"; Import [Alias "os" None]]
           [from_import "skbio.b" "y"]); reflexivity.
Defined.

Lemma parse_node_strip_asname root node imports :
  API.parse_node root (strip_asname node) imports =
  API.parse_node root node imports.
Proof.
  destruct node as [names|module names level|]; cbn [strip_asname API.parse_node].
  - rewrite map_map. reflexivity.
  - rewrite comprehension_map. reflexivity.
  - reflexivity.
Qed.

(** X7: the local name given with [as] plays no part: a module and the same
    module without its [as] clauses have the same imports. *)
Theorem parse_file_ignores_asname f g root body :
  f_source f = Module_ body -> f_source g = Module_ (map strip_asname body) ->
  API._parse_file g root = API._parse_file f root.
Proof.
  intros Hf Hg. unfold API._parse_file. rewrite Hf, Hg.
  assert (H : forall imports,
             for_each (API.parse_node root) (map strip_asname body) imports =
             for_each (API.parse_node root) body imports).
  { clear Hf Hg.
    induction body as [|node body IH]; intros imports; [reflexivity|].
    cbn [map for_each]. rewrite parse_node_strip_asname.
    unfold mbind, result_bind.
    destruct (API.parse_node root node imports); [apply IH | reflexivity]. }
  now rewrite H.
Qed.

Lemma parse_file_ignores_asname_witness :
  API._parse_file (py "m.py" [ImportFrom (Some "skbio.a") [Alias "x" None] 0]) "skbio" =
  API._parse_file
    (py "m.py" [ImportFrom (Some "skbio.a") [Alias "x" (Some "y")] 0]) "skbio".
Proof.
  apply (parse_file_ignores_asname _ _ "skbio"
           [ImportFrom (Some "skbio.a") [Alias "x" (Some "y")] 0]); reflexivity.
Defined.





Lemma filter_all {A : Type} (p : A -> bool) l :
  (forall x, In x l -> p x = true) -> List.filter p l = l.
Proof.
  induction l as [|x l IH]; intros H; [reflexivity|].
  cbn [List.filter]. rewrite (H x (or_introl eq_refl)). f_equal.
  apply IH. intros y Hy. apply H. now right.
Qed.

Lemma is_skbio_leading_dot s : API.is_skbio (String os_path.dot s) = false.
Proof. reflexivity. Qed.

Lemma is_skbio_prefix s : API.is_skbio ("skbio" +:+ String os_path.dot s) = true.
Proof. reflexivity. Qed.



Lemma spec_walk_up_head n x rest :
  n <= length rest -> exists rest', spec_walk_up n (x :: rest) = x :: rest'.
Proof.
  revert rest. induction n as [|n IH]; intros rest Hle; [eauto|].
  destruct rest as [|y rest] using rev_ind; [simpl in Hle; lia|].
  cbn [spec_walk_up]. rewrite app_comm_cons, removelast_last.
  apply IH. rewrite length_app in Hle. simpl in Hle. lia.
Qed.

Lemma parse_node_from root module names level imports :
  API.parse_node root (ImportFrom (Some module) names level) imports =
  Ok (imports ++
      map (fun x => Str.join "." [API.import_prefix root level +:+ module; name x])
          names).
Proof.
  cbn [API.parse_node]. unfold API.str_add.
  change (comprehension _ names)
    with (comprehension
            (fun x => Ok (Str.join "."
                            [API.import_prefix root level +:+ module; name x]))
            names).
  now rewrite comprehension_ok.
Qed.

Lemma segment_skbio : segment "skbio".
Proof. split; [discriminate | reflexivity]. Qed.

(** X9: in a file below [skbio], a relative import that stays inside
    [skbio] resolves to the names of the directories left after walking up,
    then the module, then the imported name, joined by dots; and every such
    import passes the filter on [skbio]. *)
Theorem relative_import_inside_is_kept rest level module names f :
  Forall segment rest -> 0 < level -> level <= S (length rest) ->
  f_source f = Module_ [ImportFrom (Some module) names level] ->
  API._parse_file f (Str.join "/" ("skbio" :: rest)) =
  Ok (map (fun x => Str.join "." (spec_base ("skbio" :: rest) level ++
                                  [module; name x])) names).
Proof.
  intros Hrest Hpos Hlevel Hf.
  assert (Hall : Forall segment ("skbio" :: rest))
    by (constructor; [apply segment_skbio | assumption]).
  unfold API._parse_file. rewrite Hf. cbn [for_each].
  rewrite parse_node_from, (import_prefix_spec _ _ Hall Hpos).
  unfold spec_base.
  destruct (spec_walk_up_head (level - 1) "skbio" rest ltac:(lia)) as [rest' ->].
  unfold mbind, result_bind. cbn [app].
  rewrite filter_all.
  - apply f_equal. apply map_ext. intros x.
    replace ("skbio" :: rest' ++ [module; name x])
      with ((("skbio" :: rest') ++ [module]) ++ [name x])
      by (now rewrite <- app_assoc).
    rewrite (join_snoc "." (("skbio" :: rest') ++ [module]) (name x)).
    cbn [app].
    change (Str.join "." ("skbio" :: rest' ++ [module]))
      with (Str.join "." (("skbio" :: rest') ++ [module])).
    rewrite (join_snoc "." ("skbio" :: rest') module).
    set (J := Str.join "." ("skbio" :: rest')). cbn [Str.join].
    now rewrite !append_assoc.
  - intros s Hs. apply in_map_iff in Hs. destruct Hs as [x [<- _]].
    destruct rest' as [|y rest']; reflexivity.
Qed.

Lemma relative_import_inside_is_kept_witness :
  API._parse_file (py "test_x.py" [ImportFrom (Some "mod") [Alias "foo" None] 2])
    "skbio/sub/tests" =
  Ok ["skbio.sub.mod.foo"].
Proof.
  apply (relative_import_inside_is_kept ["sub"; "tests"] 2 "mod" [Alias "foo" None]).
  - repeat constructor; discriminate.
  - lia.
  - simpl. lia.
  - reflexivity.
Defined.

(** ** The execute-permission check *)

Lemma run_dirs_pure {S : Type} (v : RepoValidator S)
    (g : S -> string -> list file -> list string) :
  (forall self top dirs files,
     _validate v self top dirs files = Ok (g self top files, dirs, self)) ->
  forall l invalids self,
    run_dirs v l invalids self =
    Ok (invalids ++ flat_map (fun '(top, _, files) => g self top files) l, self).
Proof.
  intros Hv l. induction l as [|[[top dirs] files] l IH]; intros invalids self.
  - cbn. now rewrite app_nil_r.
  - cbn [run_dirs flat_map]. rewrite Hv, IH. now rewrite app_assoc.
Qed.

Lemma exec_validate_dir self root dirs files :
  ExecPermissionValidator._validate self root dirs files =
  Ok (map (fun f => os_path.join root (f_name f))
        (List.filter (exec_flagged (ExecPermissionValidator.extensions self)) files),
      dirs, self).
Proof.
  unfold ExecPermissionValidator._validate.
  match goal with
  | |- context [fold_left ?step files []] =>
      assert (H : forall acc,
                 fold_left step files acc =
                 acc ++ map (fun f => os_path.join root (f_name f))
                          (List.filter
                             (exec_flagged (ExecPermissionValidator.extensions self))
                             files))
  end.
  { induction files as [|f files IH]; intros acc; [cbn; now rewrite app_nil_r|].
    cbn [fold_left List.filter]. rewrite IH. unfold exec_flagged at 2.
    destruct (os_path.splitext (f_name f)) as [base ext]. cbn [snd].
    destruct (str_in ext (ExecPermissionValidator.extensions self));
      destruct (f_exec f); cbn [andb map]; try reflexivity.
    now rewrite <- app_assoc. }
  now rewrite H.
Qed.

(** X10: the execute-permission check reports exactly the files, anywhere in
    the tree, that have one of the extensions and may be executed, each by
    its path; it never raises and leaves the validator as it was. *)
Theorem exec_check_reports_exactly self root t :
  exists invalids,
    validate ExecPermissionValidator.validator self root t =
    Ok (report ExecPermissionValidator.validator invalids, self) /\
    forall p, In p invalids <->
      exists top dirs files f,
        In (top, dirs, files) (os_walk root t) /\ In f files /\
        p = os_path.join top (f_name f) /\
        str_in (snd (os_path.splitext (f_name f)))
          (ExecPermissionValidator.extensions self) = true /\
        f_exec f = true.
Proof.
  eexists. split.
  - unfold validate. rewrite (walk_run_dirs _ exec_keeps_dirs).
    rewrite (run_dirs_pure ExecPermissionValidator.validator
               (fun self top files =>
                  map (fun f => os_path.join top (f_name f))
                    (List.filter
                       (exec_flagged (ExecPermissionValidator.extensions self))
                       files))
               exec_validate_dir).
    reflexivity.
  - intros p. cbn [app]. rewrite in_flat_map. split.
    + intros [[[top dirs] files] [Hl Hp]]. apply in_map_iff in Hp.
      destruct Hp as [f [<- Hf]]. apply List.filter_In in Hf.
      destruct Hf as [Hf Hflag]. unfold exec_flagged in Hflag.
      apply andb_prop in Hflag. destruct Hflag as [Hext Hexec].
      exists top, dirs, files, f. auto.
    + intros [top [dirs [files [f [Hl [Hf [-> [Hext Hexec]]]]]]]].
      exists (top, dirs, files). split; [assumption|].
      apply in_map_iff. exists f. split; [reflexivity|].
      apply List.filter_In. split; [assumption|].
      unfold exec_flagged. now rewrite Hext, Hexec.
Qed.

(** ** The generated-Cython check *)

Lemma append_nil_r (s : string) : s +:+ "" = s.
Proof. induction s as [|a s IH]; [reflexivity|]. rewrite append_cons. now rewrite IH. Qed.

Lemma rcut_append c s : fst (Str.rcut c s) +:+ snd (Str.rcut c s) = s.
Proof.
  induction s as [|a s IH]; [reflexivity|]. cbn [Str.rcut].
  destruct (Str.rcut c s) as [h t]. cbn [fst snd] in IH.
  destruct h as [|b h].
  - rewrite append_nil_l in IH. subst t.
    destruct (Ascii.eqb a c); reflexivity.
  - cbn [fst snd]. rewrite append_cons. now rewrite IH.
Qed.

(** The left part of a cut ends with the character it was cut at. *)
Lemma rcut_head_end c s :
  fst (Str.rcut c s) <> "" ->
  Str.drop_last (fst (Str.rcut c s)) +:+ String c "" = fst (Str.rcut c s).
Proof.
  induction s as [|a s IH]; [intros H; now destruct H|]. cbn [Str.rcut].
  destruct (Str.rcut c s) as [h t]. cbn [fst] in IH.
  destruct h as [|b h].
  - destruct (Ascii.eqb_spec a c) as [->|Hne]; cbn [fst]; intros H;
      [reflexivity | now destruct H].
  - cbn [fst]. intros _.
    change (Str.drop_last (String a (String b h)))
      with (String a (Str.drop_last (String b h))).
    rewrite append_cons. rewrite IH; [reflexivity | discriminate].
Qed.

(** [root + ext == path] for [root, ext = os.path.splitext(path)]. *)
Lemma splitext_append p :
  fst (os_path.splitext p) +:+ snd (os_path.splitext p) = p.
Proof.
  unfold os_path.splitext.
  pose proof (rcut_append os_path.sep p) as Hp.
  destruct (Str.rcut os_path.sep p) as [dir base]. cbn [fst snd] in Hp.
  pose proof (rcut_append os_path.dot base) as Hb.
  pose proof (rcut_head_end os_path.dot base) as He.
  destruct (Str.rcut os_path.dot base) as [stem_dot rest]. cbn [fst snd] in Hb, He.
  destruct (Str.is_empty stem_dot) eqn:Hempty; [apply append_nil_r|].
  destruct (Str.all_char os_path.dot (Str.drop_last stem_dot));
    [apply append_nil_r|].
  cbn [fst snd]. rewrite <- Hp, <- Hb.
  assert (Hne : stem_dot <> "") by (destruct stem_dot; discriminate).
  rewrite <- (He Hne) at 2.
  now rewrite !append_assoc.
Qed.

Lemma bases_insert (m : gmap string (list string)) e v ext :
  GeneratedCythonValidator.bases (<[e := v]> m) ext =
  if String.eqb e ext then v else GeneratedCythonValidator.bases m ext.
Proof.
  unfold GeneratedCythonValidator.bases.
  destruct (String.eqb_spec e ext) as [->|Hne].
  - now rewrite lookup_insert_eq.
  - now rewrite lookup_insert_ne.
Qed.

Lemma in_bases_with base ext files :
  In base (bases_with ext files) <->
  exists f, In f files /\ os_path.splitext (f_name f) = (base, ext).
Proof.
  unfold bases_with. rewrite in_flat_map. split.
  - intros [f [Hf Hin]]. exists f. split; [assumption|].
    destruct (os_path.splitext (f_name f)) as [b e0].
    destruct (String.eqb e0 ext) eqn:E; [|destruct Hin].
    apply String.eqb_eq in E. destruct Hin as [Hb|[]]. now subst.
  - intros [f [Hf Hs]]. exists f. split; [assumption|].
    rewrite Hs, String.eqb_refl. now left.
Qed.

(** The size of a generated C file is asked of a file that is there. *)
Lemma getsize_of_base base ext files :
  In base (bases_with ext files) ->
  exists g, find (fun f => String.eqb (f_name f) (base +:+ ext)) files = Some g.
Proof.
  intros Hin. apply in_bases_with in Hin. destruct Hin as [f [Hf Hs]].
  pose proof (splitext_append (f_name f)) as Hname. rewrite Hs in Hname.
  cbn [fst snd] in Hname.
  destruct (find (fun f => String.eqb (f_name f) (base +:+ ext)) files) as [g|] eqn:E;
    [eauto|].
  apply (find_none _ _ E) in Hf. rewrite Hname, String.eqb_refl in Hf. discriminate.
Qed.

Lemma cython_validate_dir self root dirs files :
  GeneratedCythonValidator._validate self root dirs files =
  if existsb (cython_unreadable (GeneratedCythonValidator.c_ext self) files)
       (bases_with (GeneratedCythonValidator.cython_ext self) files)
  then Raise OSError
  else
    Ok (map (fun base =>
               os_path.join root (base +:+ GeneratedCythonValidator.cython_ext self))
          (List.filter (cython_flagged (GeneratedCythonValidator.c_ext self) files)
             (bases_with (GeneratedCythonValidator.cython_ext self) files)),
        dirs, self).
Proof.
  unfold GeneratedCythonValidator._validate.
  match goal with
  | |- context [fold_left ?step files ∅] =>
      assert (Hbases : forall ext,
                 GeneratedCythonValidator.bases (fold_left step files ∅) ext =
                 bases_with ext files);
      [ assert (Hgen : forall fs (m : gmap string (list string)) ext,
                   GeneratedCythonValidator.bases (fold_left step fs m) ext =
                   GeneratedCythonValidator.bases m ext ++ bases_with ext fs)
      | generalize dependent (fold_left step files ∅) ]
  end.
  - induction fs as [|f fs IH]; intros m ext.
    + cbn. now rewrite app_nil_r.
    + cbn [fold_left]. rewrite IH. unfold bases_with. cbn [flat_map].
      destruct (os_path.splitext (f_name f)) as [base e0].
      rewrite bases_insert.
      destruct (String.eqb e0 ext) eqn:E.
      * apply String.eqb_eq in E. subst e0. now rewrite <- app_assoc.
      * reflexivity.
  - intros ext. rewrite Hgen. unfold GeneratedCythonValidator.bases at 1.
    now rewrite lookup_empty.
  - intros m Hbases. rewrite !Hbases. clear m Hbases.
    set (cbases := bases_with (GeneratedCythonValidator.c_ext self) files).
    match goal with
    | |- context [for_each ?body _ []] =>
        assert (Hloop : forall l acc,
                   (forall b, In b l -> In b cbases ->
                      exists g, find (fun f => String.eqb (f_name f)
                                     (b +:+ GeneratedCythonValidator.c_ext self))
                                  files = Some g) ->
                   for_each body l acc =
                   if existsb
                        (cython_unreadable (GeneratedCythonValidator.c_ext self) files)
                        l
                   then Raise OSError
                   else
                     Ok (acc ++
                         map (fun base =>
                                os_path.join root
                                  (base +:+ GeneratedCythonValidator.cython_ext self))
                           (List.filter
                              (cython_flagged (GeneratedCythonValidator.c_ext self)
                                 files) l)))
    end.
    { induction l as [|b l IH]; intros acc Hfind; [cbn; now rewrite app_nil_r|].
      cbn [for_each List.filter existsb].
      assert (Hrest : forall b', In b' l -> In b' cbases ->
                exists g, find (fun f => String.eqb (f_name f)
                               (b' +:+ GeneratedCythonValidator.c_ext self))
                            files = Some g)
        by (intros b' Hb'; apply Hfind; now right).
      unfold mbind, result_bind.
      destruct (str_in b cbases) eqn:Hin; cbn [negb].
      - pose proof Hin as Hin'. apply str_in_In in Hin'.
        destruct (Hfind b (or_introl eq_refl) Hin') as [g Hg].
        unfold GeneratedCythonValidator.getsize. rewrite Hg.
        destruct (f_size g) as [size|] eqn:Hsize.
        + assert (Hflag : cython_flagged (GeneratedCythonValidator.c_ext self) files b =
                          Nat.leb size 0)
            by (unfold cython_flagged; fold cbases; now rewrite Hin, Hg, Hsize).
          assert (Hun : cython_unreadable (GeneratedCythonValidator.c_ext self) files b =
                        false)
            by (unfold cython_unreadable; fold cbases; now rewrite Hin, Hg, Hsize).
          rewrite Hflag, Hun. cbn [orb].
          destruct (Nat.leb size 0); rewrite (IH _ Hrest);
            destruct (existsb _ l); try reflexivity.
          cbn [map]. now rewrite <- app_assoc.
        + assert (Hun : cython_unreadable (GeneratedCythonValidator.c_ext self) files b =
                        true)
            by (unfold cython_unreadable; fold cbases; now rewrite Hin, Hg, Hsize).
          now rewrite Hun.
      - assert (Hflag : cython_flagged (GeneratedCythonValidator.c_ext self) files b =
                        true)
          by (unfold cython_flagged; fold cbases; now rewrite Hin).
        assert (Hun : cython_unreadable (GeneratedCythonValidator.c_ext self) files b =
                      false)
          by (unfold cython_unreadable; fold cbases; now rewrite Hin).
        rewrite Hflag, Hun, (IH _ Hrest). cbn [orb].
        destruct (existsb _ l); [reflexivity|].
        cbn [map]. now rewrite <- app_assoc. }
    rewrite Hloop by (intros b _ Hb; now apply getsize_of_base).
    now destruct (existsb _ _).
Qed.

(** X11: [GeneratedCythonValidator._validate] raises, and then [OSError],
    exactly when the listing has a Cython file beside a C file of the same
    base name whose size cannot be read; the size of a file that is not in
    the listing is never asked for.  Otherwise it returns, leaves [dirs]
    and the validator alone, and reports exactly the Cython files of the
    directory for which no file of the listing has the same base name and
    the C extension, or for which that C file is empty. *)
Theorem cython_check_reports_exactly self root dirs files :
  (existsb (cython_unreadable (GeneratedCythonValidator.c_ext self) files)
     (bases_with (GeneratedCythonValidator.cython_ext self) files) = true ->
   GeneratedCythonValidator._validate self root dirs files = Raise OSError) /\
  (existsb (cython_unreadable (GeneratedCythonValidator.c_ext self) files)
     (bases_with (GeneratedCythonValidator.cython_ext self) files) = false ->
   exists invalids,
     GeneratedCythonValidator._validate self root dirs files =
     Ok (invalids, dirs, self) /\
     forall p, In p invalids <->
       exists f base,
         In f files /\
         os_path.splitext (f_name f) =
           (base, GeneratedCythonValidator.cython_ext self) /\
         p = os_path.join root (base +:+ GeneratedCythonValidator.cython_ext self) /\
         ((forall g, In g files ->
             os_path.splitext (f_name g) <>
             (base, GeneratedCythonValidator.c_ext self)) \/
          (exists g,
             find (fun f => String.eqb (f_name f)
                     (base +:+ GeneratedCythonValidator.c_ext self)) files = Some g /\
             f_size g = Some 0))).
Proof.
  rewrite cython_validate_dir. split; intros Hun; rewrite Hun; [reflexivity|].
  eexists. split; [reflexivity|].
  intros p. rewrite in_map_iff. split.
  - intros [base [<- Hb]]. apply List.filter_In in Hb. destruct Hb as [Hb Hflag].
    assert (Hnot : cython_unreadable (GeneratedCythonValidator.c_ext self) files base =
                   false).
    { destruct (cython_unreadable _ files base) eqn:E; [|reflexivity].
      rewrite <- Hun. symmetry. apply existsb_exists. eauto. }
    apply in_bases_with in Hb. destruct Hb as [f [Hf Hs]].
    exists f, base. split; [assumption|]. split; [assumption|].
    split; [reflexivity|].
    unfold cython_flagged in Hflag. apply Bool.orb_true_iff in Hflag.
    destruct Hflag as [Hno|Hsize].
    + left. intros g Hg Hsg. apply Bool.negb_true_iff in Hno.
      assert (Hin : In base (bases_with (GeneratedCythonValidator.c_ext self) files))
        by (apply in_bases_with; eauto).
      apply str_in_In in Hin. congruence.
    + right. destruct (find _ files) as [g|]; [|discriminate].
      exists g. split; [reflexivity|].
      destruct (f_size g) as [size|]; [|discriminate].
      apply Nat.leb_le in Hsize. f_equal. lia.
  - intros [f [base [Hf [Hs [-> Hcond]]]]]. exists base. split; [reflexivity|].
    apply List.filter_In. split; [apply in_bases_with; eauto|].
    unfold cython_flagged. apply Bool.orb_true_iff.
    destruct Hcond as [Hno|[g [Hg Hsize]]].
    + left. apply Bool.negb_true_iff.
      destruct (str_in base (bases_with _ files)) eqn:Hin; [|reflexivity].
      apply str_in_In in Hin. apply in_bases_with in Hin.
      destruct Hin as [g [Hg Hsg]]. now apply Hno in Hsg.
    + right. rewrite Hg, Hsize. reflexivity.
Qed.

Lemma cython_check_reports_exactly_witness :
  GeneratedCythonValidator._validate GeneratedCythonValidator.__init__ "skbio" []
    [py "__init__.py" []; File "a.pyx" (Module_ []) false (Some 10);
     File "a.c" (Module_ []) false None] = Raise OSError /\
  exists invalids,
    GeneratedCythonValidator._validate GeneratedCythonValidator.__init__ "skbio" []
      [File "a.pyx" (Module_ []) false (Some 10);
       File "b.pyx" (Module_ []) false (Some 10);
       File "b.c" (Module_ []) false (Some 0);
       File "c.pyx" (Module_ []) false (Some 10);
       File "c.c" (Module_ []) false (Some 7)] =
    Ok (invalids, [], GeneratedCythonValidator.__init__) /\
    In "skbio/a.pyx" invalids /\ In "skbio/b.pyx" invalids /\
    ~ In "skbio/c.pyx" invalids.
Proof.
  split.
  - apply (proj1 (cython_check_reports_exactly GeneratedCythonValidator.__init__
                    "skbio" [] _)).
    reflexivity.
  - destruct (proj2 (cython_check_reports_exactly GeneratedCythonValidator.__init__
                       "skbio" []
                       [File "a.pyx" (Module_ []) false (Some 10);
                        File "b.pyx" (Module_ []) false (Some 10);
                        File "b.c" (Module_ []) false (Some 0);
                        File "c.pyx" (Module_ []) false (Some 10);
                        File "c.c" (Module_ []) false (Some 7)]) eq_refl)
      as [invalids [Hrun _]].
    exists invalids. split; [exact Hrun|].
    vm_compute in Hrun. injection Hrun as <-.
    repeat split; simpl; intuition discriminate.
Defined.

(** ** [main] and exceptions *)

Lemma main_loop_prefix vs rest root t results return_code stderr :
  Forall2 (fun o r => run_validate o root t = Ok r) vs results ->
  main_loop (vs ++ rest) root t return_code stderr =
  main_loop rest root t (if forallb fst results then return_code else 1)
    (stderr_of results stderr).
Proof.
  intros H. revert return_code stderr.
  induction H as [|o [success msg] vs results Ho _ IH]; intros return_code stderr;
    [reflexivity|].
  cbn [app main_loop]. rewrite Ho. cbn [stderr_of fold_left forallb fst snd andb].
  destruct success; rewrite IH; [reflexivity|].
  unfold stderr_of. now destruct (forallb fst results).
Qed.

Lemma main_loop_cons o rest root t return_code stderr :
  main_loop (o :: rest) root t return_code stderr =
  match run_validate o root t with
  | Raise e => (stderr, Raise e)
  | Ok (success, msg) =>
      if success then main_loop rest root t return_code stderr
      else main_loop rest root t 1 (stderr +:+ Str.join nl msg +:+ nl +:+ nl)
  end.
Proof. reflexivity. Qed.

Lemma walk_raise_origin {S : Type} (v : RepoValidator S) t :
  forall top invalids self e,
    walk v top t invalids self = Raise e ->
    exists self' top' dirs files, _validate v self' top' dirs files = Raise e.
Proof.
  induction t as [files dirs IH] using tree_induction.
  intros top invalids self e. cbn [walk].
  destruct (_validate v self top (map fst dirs) files) as [[[r d'] s']|e'] eqn:Hv;
    [|intros [= <-]; eauto].
  clear Hv. generalize (invalids ++ r) as inv. generalize s' as s0.
  induction dirs as [|[n d] ds IHds]; intros s0 inv; [discriminate|].
  inversion IH as [|? ? Hd Hds]; subst. simpl in Hd.
  destruct (str_in n d'); [|now apply IHds].
  destruct (walk v (os_path.join top n) d inv s0) as [[inv' s1]|e1] eqn:Hw.
  - now apply IHds.
  - intros [= <-]. exact (Hd _ _ _ _ Hw).
Qed.

(** X12: the init check and the execute-permission check never end [main];
    [main] ends with an exception exactly when the generated-Cython check
    raises it, or that check returns and the API regression check raises
    it.  An exception of the generated-Cython check is the [OSError] of
    [os.path.getsize]. *)
Theorem main_raises_iff t e :
  (snd (main t) = Raise e <->
   run_validate (Validator GeneratedCythonValidator.validator
                   GeneratedCythonValidator.__init__) "skbio" t = Raise e \/
   ((exists r, run_validate (Validator GeneratedCythonValidator.validator
                               GeneratedCythonValidator.__init__) "skbio" t = Ok r) /\
    validate API.validator API.__init__ "skbio" t = Raise e)) /\
  (run_validate (Validator GeneratedCythonValidator.validator
                   GeneratedCythonValidator.__init__) "skbio" t = Raise e ->
   e = OSError).
Proof.
  split.
  - destruct (init_validate_total (InitValidator.__init__ None) "skbio" t)
      as [r1 H1].
    destruct (exec_validate_total (ExecPermissionValidator.__init__ None) "skbio" t)
      as [r2 H2].
    unfold main, validators.
    rewrite (main_loop_prefix
               [Validator InitValidator.validator (InitValidator.__init__ None);
                Validator ExecPermissionValidator.validator
                  (ExecPermissionValidator.__init__ None)]
               [Validator GeneratedCythonValidator.validator
                  GeneratedCythonValidator.__init__;
                Validator API.validator API.__init__] "skbio" t [r1; r2])
      by (repeat constructor; assumption).
    rewrite main_loop_cons.
    destruct (run_validate (Validator GeneratedCythonValidator.validator _) _ _)
      as [[s3 m3]|e3].
    + assert (Hapi : forall rc out,
                snd (main_loop [Validator API.validator API.__init__] "skbio" t
                       rc out) = Raise e <->
                validate API.validator API.__init__ "skbio" t = Raise e).
      { intros rc out. cbn [main_loop]. unfold run_validate at 1.
        unfold mbind, result_bind.
        destruct (validate API.validator API.__init__ "skbio" t)
          as [[[success msg] s]|e'].
        - destruct success; cbn [snd]; split; discriminate.
        - cbn [snd]. split; intros [= ->]; reflexivity. }
      destruct s3; rewrite Hapi; (split;
        [intros H; right; split; [eauto | assumption]
        |intros [H|[_ H]]; [discriminate | assumption]]).
    + cbn [snd]. split.
      * intros [= ->]. now left.
      * intros [[= ->]|[[r Hr] _]]; [reflexivity | discriminate].
  - unfold run_validate, validate, mbind, result_bind.
    destruct (walk GeneratedCythonValidator.validator "skbio" t []
                GeneratedCythonValidator.__init__) as [[inv s]|e'] eqn:Hw;
      [discriminate|].
    intros [= <-]. apply walk_raise_origin in Hw.
    destruct Hw as [self' [top' [dirs [files Hv]]]].
    cbn [_validate GeneratedCythonValidator.validator] in Hv.
    rewrite cython_validate_dir in Hv.
    destruct (existsb _ _); [now injection Hv | discriminate].
Qed.

Lemma main_raises_iff_witness :
  snd (main dangling_c_tree) = Raise OSError.
Proof.
  apply (proj1 (main_raises_iff dangling_c_tree OSError)).
  left. vm_compute. reflexivity.
Defined.

Lemma append_eq_nil (a b : string) : a +:+ b = "" -> a = "" /\ b = "".
Proof.
  destruct a as [|x a]; [rewrite append_nil_l; auto|].
  rewrite append_cons. discriminate.
Qed.

Lemma stderr_of_nonempty results stderr :
  stderr <> "" -> stderr_of results stderr <> "".
Proof.
  revert stderr. induction results as [|[success msg] results IH]; intros stderr Hne;
    [assumption|].
  cbn [stderr_of fold_left fst snd]. destruct success; apply IH; [assumption|].
  intros H. apply append_eq_nil in H. now destruct H.
Qed.

Lemma stderr_of_empty results :
  stderr_of results "" = "" <-> forallb fst results = true.
Proof.
  induction results as [|[success msg] results IH]; [split; reflexivity|].
  cbn [stderr_of fold_left fst snd forallb]. destruct success.
  - exact IH.
  - cbn [andb]. split; [|discriminate]. intros H. exfalso.
    revert H. apply stderr_of_nonempty. intros H.
    apply append_eq_nil in H. destruct H as [_ H].
    apply append_eq_nil in H. destruct H as [_ H].
    apply append_eq_nil in H. destruct H as [H _]. discriminate H.
Qed.

(** X13: when [main] returns, it has written nothing to [sys.stderr] exactly
    when it returns 0; a return code of 1 always comes with a report. *)
Theorem main_silent_iff_success t out rc :
  main t = (out, Ok rc) -> (rc = 0 <-> out = "").
Proof.
  intros H. unfold main in H.
  destruct (main_loop_returns _ _ _ _ _ _ _ H) as [results Hres].
  rewrite (main_loop_results _ _ _ _ _ _ Hres) in H. injection H as <- <-.
  rewrite stderr_of_empty. destruct (forallb fst results); split; congruence.
Qed.

Lemma main_silent_iff_success_witness :
  1 = 0 <->
  "The following tests import `A` but should import `B` (file: A => B):"
  +:+ nl +:+ "    skbio/sub/tests/test_mod.py: skbio.sub.mod.foo => skbio.sub.foo"
  +:+ nl +:+ nl = "".
Proof.
  apply (main_silent_iff_success scenario_A_tree).
  vm_compute. reflexivity.
Defined.

(** ** The init check *)

Lemma filter_filter {A : Type} (p q : A -> bool) l :
  List.filter p (List.filter q l) = List.filter (fun a => q a && p a) l.
Proof.
  induction l as [|a l IH]; [reflexivity|]. cbn [List.filter].
  destruct (q a); cbn [List.filter andb]; [destruct (p a)|]; now rewrite IH.
Qed.

Lemma remove_is_filter x l :
  List.NoDup l ->
  (if str_in x l then list_remove x l else l) =
  List.filter (fun y => negb (String.eqb y x)) l.
Proof.
  induction 1 as [|y l Hy Hl IH]; [reflexivity|].
  cbn [str_in existsb list_remove List.filter]. fold (str_in x l).
  rewrite (String.eqb_sym x y).
  destruct (String.eqb_spec y x) as [->|Hne]; cbn [orb negb].
  - symmetry. apply filter_all. intros z Hz.
    destruct (String.eqb_spec z x) as [->|]; [contradiction | reflexivity].
  - rewrite <- IH. now destruct (str_in x l).
Qed.

Lemma skip_is_filter skip dirs :
  List.NoDup dirs ->
  fold_left (fun dirs0 skip_dir =>
               if str_in skip_dir dirs0 then list_remove skip_dir dirs0 else dirs0)
            skip dirs =
  List.filter (fun n => negb (str_in n skip)) dirs.
Proof.
  revert dirs. induction skip as [|x skip IH]; intros dirs Hnd.
  - cbn. symmetry. now apply filter_all.
  - cbn [fold_left]. rewrite (remove_is_filter _ _ Hnd).
    rewrite IH by now apply List.NoDup_filter.
    rewrite filter_filter. apply List.filter_ext. intros n.
    cbn [str_in existsb]. fold (str_in n skip).
    now rewrite Bool.negb_orb.
Qed.

(** X14: when the names in [dirs] are distinct, [InitValidator._validate]
    takes every name of [skip_dirs] out of [dirs] and leaves the other names
    in their order; it reports the directory exactly when its files do not
    include [__init__.py]. *)
Theorem init_check_dir self root dirs files :
  List.NoDup dirs ->
  InitValidator._validate self root dirs files =
  Ok (if has_file "__init__.py" files then [] else [root],
      List.filter (fun n => negb (str_in n (InitValidator.skip_dirs self))) dirs,
      self).
Proof.
  intros Hnd. unfold InitValidator._validate.
  rewrite (skip_is_filter _ _ Hnd). now destruct (has_file "__init__.py" files).
Qed.

Lemma init_check_dir_witness :
  InitValidator._validate (InitValidator.__init__ None) "skbio"
    ["io"; "data"; "util"; "__pycache__"] [py "setup.py" []] =
  Ok (["skbio"], ["io"; "util"], InitValidator.__init__ None).
Proof.
  apply (init_check_dir (InitValidator.__init__ None) "skbio"
           ["io"; "data"; "util"; "__pycache__"] [py "setup.py" []]).
  repeat constructor; simpl; intuition discriminate.
Defined.

Lemma init_validate_dir self root dirs files :
  List.NoDup dirs ->
  _validate InitValidator.validator self root dirs files =
  Ok (if has_file "__init__.py" files then [] else [root],
      List.filter (fun n => negb (str_in n (InitValidator.skip_dirs self))) dirs,
      self).
Proof.
  intros Hnd. cbn [_validate InitValidator.validator].
  unfold InitValidator._validate.
  rewrite (skip_is_filter _ _ Hnd). now destruct (has_file "__init__.py" files).
Qed.

Lemma str_in_filter p n l :
  In n l -> str_in n (List.filter p l) = p n.
Proof.
  intros Hin. destruct (p n) eqn:Hp.
  - apply str_in_In. apply List.filter_In. auto.
  - destruct (str_in n (List.filter p l)) eqn:E; [|reflexivity].
    apply str_in_In in E. apply List.filter_In in E. destruct E. congruence.
Qed.

Lemma init_walk_pruned self t :
  distinct_names t ->
  forall top invalids,
    walk InitValidator.validator top t invalids self =
    Ok (invalids ++
        missing_init (os_walk top (prune (InitValidator.skip_dirs self) t)),
        self).
Proof.
  induction t as [files dirs IH] using tree_induction.
  intros [Hnd Hall] top invalids. cbn [walk].
  rewrite (init_validate_dir _ _ _ _ Hnd).
  unfold missing_init. cbn [prune os_walk flat_map]. rewrite app_assoc.
  generalize (invalids ++ (if has_file "__init__.py" files then [] else [top]))
    as inv0.
  assert (Hnames : forall n, In n (map fst dirs) ->
            str_in n (List.filter
                        (fun n => negb (str_in n (InitValidator.skip_dirs self)))
                        (map fst dirs)) =
            negb (str_in n (InitValidator.skip_dirs self)))
    by (intros n Hn; now apply str_in_filter).
  revert Hnames.
  generalize (List.filter (fun n => negb (str_in n (InitValidator.skip_dirs self)))
                (map fst dirs)) as names.
  clear Hnd. revert IH Hall.
  induction dirs as [|[n d] ds IHds]; intros IH Hall names Hnames inv0.
  - cbn. now rewrite app_nil_r.
  - destruct Hall as [Hd Hall]. inversion IH as [|? ? IHd IHrest]; subst.
    cbn [snd] in IHd.
    assert (Hrest : forall m, In m (map fst ds) ->
              str_in m names = negb (str_in m (InitValidator.skip_dirs self)))
      by (intros m Hm; apply Hnames; now right).
    rewrite (Hnames n (or_introl eq_refl)).
    destruct (str_in n (InitValidator.skip_dirs self)); cbn [negb].
    + now apply IHds.
    + rewrite (IHd Hd). rewrite (IHds IHrest Hall names Hrest).
      cbn [flat_map]. rewrite flat_map_app. now rewrite !app_assoc.
Qed.

(** X15: in a tree whose directories have distinct names, the init check
    reports exactly the directories without [__init__.py], in the order of
    the walk, of the tree from which the directories named in [skip_dirs]
    have been cut out with all they contain; the root is never cut out. *)
Theorem init_check_reports_pruned_tree self root t :
  distinct_names t ->
  validate InitValidator.validator self root t =
  Ok (report InitValidator.validator
        (missing_init (os_walk root (prune (InitValidator.skip_dirs self) t))),
      self).
Proof.
  intros Hd. unfold validate. now rewrite (init_walk_pruned self t Hd).
Qed.

Lemma init_check_reports_pruned_tree_witness :
  validate InitValidator.validator (InitValidator.__init__ None) "skbio"
    (Dir [py "__init__.py" []]
       [("data", Dir [] [("deep", Dir [] [])]);
        ("io", Dir [] [("__pycache__", Dir [] [])])]) =
  Ok (false, ["Directories missing init files:"; "    skbio/io"],
      InitValidator.__init__ None).
Proof.
  apply (init_check_reports_pruned_tree (InitValidator.__init__ None) "skbio"
           (Dir [py "__init__.py" []]
              [("data", Dir [] [("deep", Dir [] [])]);
               ("io", Dir [] [("__pycache__", Dir [] [])])])).
  cbn [distinct_names map fst].
  repeat split; repeat constructor; simpl; intuition discriminate.
Defined.

(** ** Which of several paths the registry keeps *)

Lemma build_keeps_entry offers reg k s :
  reg !! k = Some s ->
  (forall package import_, In (package, import_) offers ->
     API.key_of import_ = k ->
     API.depth s <= API.depth (API.candidate package import_)) ->
  build offers reg !! k = Some s.
Proof.
  revert reg. induction offers as [|[package import_] offers IH]; intros reg Hk Hge;
    [assumption|].
  rewrite build_cons. apply IH.
  - destruct (decide (k = API.key_of import_)) as [->|Hne].
    + rewrite (add_import_fixed _ _ _ _ Hk); [assumption|].
      apply (Hge package import_); [now left | reflexivity].
    + now rewrite add_import_other.
  - intros p i Hin. apply Hge. now right.
Qed.

(** X16: of the paths offered for a symbol, the registry ends up with the
    first one that has the fewest segments: an earlier offer with more
    segments is replaced, a later one with as many or more is ignored. *)
Theorem first_shortest_offer_is_kept before package import_ after reg :
  (forall s0, reg !! API.key_of import_ = Some s0 ->
     API.depth (API.candidate package import_) < API.depth s0) ->
  (forall p i, In (p, i) before -> API.key_of i = API.key_of import_ ->
     API.depth (API.candidate package import_) < API.depth (API.candidate p i)) ->
  (forall p i, In (p, i) after -> API.key_of i = API.key_of import_ ->
     API.depth (API.candidate package import_) <= API.depth (API.candidate p i)) ->
  build (before ++ (package, import_) :: after) reg !! API.key_of import_ =
  Some (API.candidate package import_).
Proof.
  intros Hreg Hbefore Hafter. rewrite build_app, build_cons.
  apply build_keeps_entry; [|assumption].
  unfold API.add_import.
  destruct (build before reg !! API.key_of import_) as [s|] eqn:Hs;
    [|apply lookup_insert_eq].
  assert (Hlt : API.depth (API.candidate package import_) < API.depth s).
  { destruct (build_origin _ _ _ _ Hs) as [H0|[p [i [Hin [Hk Hv]]]]].
    - now apply Hreg.
    - rewrite <- Hv. now apply Hbefore. }
  apply Nat.ltb_lt in Hlt. rewrite Hlt. apply lookup_insert_eq.
Qed.

Lemma first_shortest_offer_is_kept_witness :
  build ([("skbio.a.b", "skbio.a.b.c.m.foo")] ++
         ("skbio.a", "skbio.a.m.foo") ::
         [("skbio.b", "skbio.b.m.foo")]) ∅ !! API.key_of "skbio.a.m.foo" =
  Some (API.candidate "skbio.a" "skbio.a.m.foo").
Proof.
  apply (first_shortest_offer_is_kept
           [("skbio.a.b", "skbio.a.b.c.m.foo")] "skbio.a" "skbio.a.m.foo"
           [("skbio.b", "skbio.b.m.foo")] ∅).
  - intros s0 H. rewrite lookup_empty in H. discriminate H.
  - intros p i [[= <- <-]|[]] _. vm_compute. lia.
  - intros p i [[= <- <-]|[]] _. vm_compute. lia.
Defined.
